(** * WaveEventForm: the form that creates a new wave event

    A shallow embedding of [eeg_viewer/static/js/wave_event_form.js].

    The widget is a class with four mutable private fields; its methods also
    read and write the page (the form element, two time inputs, the type
    dropdown, the channel checkboxes) and send one action to the dispatcher.
    Every method is embedded as a function [World -> World], where a world is
    the widget's fields, the part of the page the widget touches, and the log
    of actions sent.

    JavaScript numbers are finite doubles, held as integers [Z]. A pixel
    position is a whole number of pixels. A time is a whole number of a
    fixed unit that is a power of two: one second for times in whole
    seconds, 2^-1074 second for any finite double, each of which is a whole
    multiple of it. Comparisons are exact on such integers, and the sum and
    the difference of two times are rounded to 53 significant bits, ties to
    even, as [+] and [-] round doubles ([jsAdd], [jsSub]); that rounding
    does not depend on the unit. [NaN] and the infinities are outside the
    model. Strings are [string], [null] is [None].

    The page's selector engine is a collaborator like the formatter: the
    handler of a click looks its label up with [document.querySelector] on a
    selector built from the channel name, and for a name that breaks the
    selector that call throws before anything is written. *)

From Stdlib Require Import ZArith List String Ascii Bool Lia DecimalString.
Import ListNotations.
Local Open Scope string_scope.
Local Open Scope list_scope.
Local Open Scope Z_scope.

(** ** JavaScript values *)

(** [x == null]. *)
Definition isNull {A : Type} (x : option A) : bool :=
  match x with
  | None => true
  | Some _ => false
  end.

(** The number a nullable number stands for in a comparison:
    [ToNumber(null)] is [0]. *)
Definition toNumber (x : option Z) : Z :=
  match x with
  | None => 0
  | Some n => n
  end.

(** [a || b] on numbers: [0] is the falsy number. *)
Definition orDefault (a b : Z) : Z :=
  if a =? 0 then b else a.

(** The double nearest to an integer: 53 significant bits, a tie going to
    the even one. Integers below 2^53 in magnitude are doubles already. *)
Definition roundDouble (z : Z) : Z :=
  let a := Z.abs z in
  let bits := Z.log2 a + 1 in
  if bits <=? 53 then z
  else
    let unit := 2 ^ (bits - 53) in
    let q := a / unit in
    let r := a mod unit in
    let half := unit / 2 in
    let q' :=
      if r <? half then q
      else if half <? r then q + 1
      else if Z.even q then q else q + 1 in
    Z.sgn z * (q' * unit).

(** [a + b] and [a - b] on doubles that are integers. *)
Definition jsAdd (a b : Z) : Z := roundDouble (a + b).

Definition jsSub (a b : Z) : Z := roundDouble (a - b).

(** [Set<string>]: a JavaScript set iterates in insertion order, so it is a
    list without repetition, new elements at the end. *)
Module JsSet.

Definition t : Type := list string.

Definition empty : t := [].

Definition has (s : t) (x : string) : bool :=
  existsb (String.eqb x) s.

Definition add (s : t) (x : string) : t :=
  if has s x then s else s ++ [x].

Definition delete (s : t) (x : string) : t :=
  filter (fun y => negb (String.eqb x y)) s.

Definition clear (s : t) : t := [].

(** [Array.from(s)] *)
Definition toArray (s : t) : list string := s.

End JsSet.

(** ** Collaborators *)

(** [formatter.formatTime(timestamp, prettyFlag)]. *)
Class Formatter := {
  formatTime : Z -> bool -> string
}.

(** [store.indexChannelMap]: channel index to channel name. *)
Definition IndexChannelMap : Type := list (string * string).

(** [montages.channelIndexesToNames(ids, indexMap)]. *)
Class Montages := {
  channelIndexesToNames : list string -> IndexChannelMap -> list string
}.

(** The store snapshot a listener receives. *)
Record GraphPointClick := {
  timeValue : Z;
  channelName : string;
  xPos : Z;
  yPos : Z
}.

Record StoreData := {
  graphPointClick : option GraphPointClick;
  absStart : Z;
  channelIds : option (list string);
  indexChannelMap : option IndexChannelMap
}.

(** What the dispatcher receives. *)
Inductive ActionType := ADD_WAVE_EVENT.

Record WaveEventData := {
  labelText : string;
  startTime : Z;
  duration : Z;
  channelList : list string
}.

Record Action := {
  actionType : ActionType;
  data : WaveEventData
}.

(** ** The page *)

(** A checkbox label of [#wave-event-channels]: the id its [for] attribute
    names, and whether its box shows as checked. *)
Record Checkbox := {
  forId : string;
  checked : bool
}.

(** [#wave-event-form]. When the form is hidden its [offsetWidth] and
    [offsetHeight] are 0 (the comment in [setWaveEventFormPosition_]);
    [styleLeft] and [styleTop] hold the pixels of [style.left] and
    [style.top], [None] while unset. *)
Record FormElement := {
  hidden : bool;
  renderedWidth : Z;
  renderedHeight : Z;
  styleLeft : option Z;
  styleTop : option Z
}.

Record Dom := {
  form : FormElement;
  (** [#wave-event-start-time].value and [#wave-event-end-time].value *)
  startTimeInput : string;
  endTimeInput : string;
  (** the markup inside [#wave-event-type-dropdown-text], as [innerHTML]
      reads it *)
  typeDropdown : string;
  (** labels of [#wave-event-channels] that are not in the checkbox
      container, in document order *)
  staticLabels : list Checkbox;
  (** labels of [#wave-event-channels-checkboxes], the container appended
      last to [#wave-event-channels]; empty while there is no container *)
  containerLabels : list Checkbox;
  (** [window.innerHeight] *)
  innerHeight : Z
}.

Definition offsetWidth (f : FormElement) : Z :=
  if hidden f then 0 else renderedWidth f.

Definition offsetHeight (f : FormElement) : Z :=
  if hidden f then 0 else renderedHeight f.

Definition set_hidden (b : bool) (f : FormElement) : FormElement :=
  {| hidden := b;
     renderedWidth := renderedWidth f;
     renderedHeight := renderedHeight f;
     styleLeft := styleLeft f;
     styleTop := styleTop f |}.

Definition set_style (l t : Z) (f : FormElement) : FormElement :=
  {| hidden := hidden f;
     renderedWidth := renderedWidth f;
     renderedHeight := renderedHeight f;
     styleLeft := Some l;
     styleTop := Some t |}.

Definition set_form (f : FormElement) (d : Dom) : Dom :=
  {| form := f;
     startTimeInput := startTimeInput d;
     endTimeInput := endTimeInput d;
     typeDropdown := typeDropdown d;
     staticLabels := staticLabels d;
     containerLabels := containerLabels d;
     innerHeight := innerHeight d |}.

Definition set_startTimeInput (v : string) (d : Dom) : Dom :=
  {| form := form d;
     startTimeInput := v;
     endTimeInput := endTimeInput d;
     typeDropdown := typeDropdown d;
     staticLabels := staticLabels d;
     containerLabels := containerLabels d;
     innerHeight := innerHeight d |}.

Definition set_endTimeInput (v : string) (d : Dom) : Dom :=
  {| form := form d;
     startTimeInput := startTimeInput d;
     endTimeInput := v;
     typeDropdown := typeDropdown d;
     staticLabels := staticLabels d;
     containerLabels := containerLabels d;
     innerHeight := innerHeight d |}.

Definition set_typeDropdown (v : string) (d : Dom) : Dom :=
  {| form := form d;
     startTimeInput := startTimeInput d;
     endTimeInput := endTimeInput d;
     typeDropdown := v;
     staticLabels := staticLabels d;
     containerLabels := containerLabels d;
     innerHeight := innerHeight d |}.

Definition set_staticLabels (ls : list Checkbox) (d : Dom) : Dom :=
  {| form := form d;
     startTimeInput := startTimeInput d;
     endTimeInput := endTimeInput d;
     typeDropdown := typeDropdown d;
     staticLabels := ls;
     containerLabels := containerLabels d;
     innerHeight := innerHeight d |}.

Definition set_containerLabels (ls : list Checkbox) (d : Dom) : Dom :=
  {| form := form d;
     startTimeInput := startTimeInput d;
     endTimeInput := endTimeInput d;
     typeDropdown := typeDropdown d;
     staticLabels := staticLabels d;
     containerLabels := ls;
     innerHeight := innerHeight d |}.

(** All the labels of [#wave-event-channels], in document order: the
    container is its last child. *)
Definition channelLabels (d : Dom) : list Checkbox :=
  staticLabels d ++ containerLabels d.

(** ** The selector engine *)

(** A text that stands for itself inside a double-quoted CSS string: no
    double quote, no backslash, no line break (line feed, carriage return,
    form feed) and no NUL. *)
Definition cssPlainChar (c : ascii) : bool :=
  negb (Ascii.eqb c (ascii_of_nat 34))
  && negb (Ascii.eqb c (ascii_of_nat 92))
  && negb (Ascii.eqb c (ascii_of_nat 10))
  && negb (Ascii.eqb c (ascii_of_nat 13))
  && negb (Ascii.eqb c (ascii_of_nat 12))
  && negb (Ascii.eqb c (ascii_of_nat 0)).

Fixpoint cssPlain (s : string) : bool :=
  match s with
  | EmptyString => true
  | String c rest => cssPlainChar c && cssPlain rest
  end.

Definition isLineBreak (c : ascii) : bool :=
  Ascii.eqb c (ascii_of_nat 10) || Ascii.eqb c (ascii_of_nat 13)
  || Ascii.eqb c (ascii_of_nat 12).

Definition isAlphanumeric (c : ascii) : bool :=
  let n := nat_of_ascii c in
  ((48 <=? n) && (n <=? 57) || (65 <=? n) && (n <=? 90)
   || (97 <=? n) && (n <=? 122))%nat.

Fixpoint allAlphanumeric (s : string) : bool :=
  match s with
  | EmptyString => true
  | String c rest => isAlphanumeric c && allAlphanumeric rest
  end.

(** A text that breaks the selector [label[for="text"]] whatever the page:
    after plain characters comes a line break (the string is a bad string),
    or a double quote followed by letters and digits only (the string ends
    early, and what follows it in the brackets is no selector). *)
Fixpoint cssBroken (s : string) : bool :=
  match s with
  | EmptyString => false
  | String c rest =>
      if isLineBreak c then true
      else if Ascii.eqb c (ascii_of_nat 34) then allAlphanumeric rest
      else cssPlainChar c && cssBroken rest
  end.

(** The first label for [id], as its place among the labels. *)
Fixpoint indexOfLabel (id : string) (ls : list Checkbox) : option nat :=
  match ls with
  | [] => None
  | c :: rest =>
      if String.eqb (forId c) id then Some O
      else option_map S (indexOfLabel id rest)
  end.

(** What [document.querySelector] does with a selector: it throws a
    [SyntaxError], or it returns the first element that matches, [null]
    when there is none. An element is the place of a label among
    [channelLabels]; a place past the last label stands for an element
    that is not one of these labels. *)
Inductive QueryResult :=
| QueryThrows
| QueryFinds (element : option nat).

(** [document.querySelector('label[for="' + id + '"]')], the one selector
    the widget builds. How the browser reads the selector is not this
    repository's code; two facts about it are fixed here. For a plain [id]
    the selector is the attribute selector it looks like, and matches the
    labels whose [for] attribute is [id]. For a broken [id] the selector
    does not parse. For any other [id] (a backslash, a quote followed by
    more selector text) the engine decides. *)
Class SelectorEngine := {
  queryLabelFor : string -> Dom -> QueryResult;
  queryLabelFor_plain : forall id d,
    cssPlain id = true ->
    queryLabelFor id d = QueryFinds (indexOfLabel id (channelLabels d));
  queryLabelFor_broken : forall id d,
    cssBroken id = true -> queryLabelFor id d = QueryThrows
}.

(** Modelled from the spec: [utils.toggleMDLCheckbox(label, checked)], whose
    file is not part of the sources. It sets the visual checked state of the
    label's box. *)
Definition toggleMDLCheckbox (c : Checkbox) (v : bool) : Checkbox :=
  {| forId := forId c; checked := v |}.

(** Modelled from the spec: [utils.addMDLCheckbox(container, id, name, cb)],
    whose file is not part of the sources. It appends one unchecked box with a
    label for [id] to the container; [cb] is run when the user toggles it. *)
Definition addMDLCheckbox (container : list Checkbox) (id : string)
  : list Checkbox :=
  container ++ [{| forId := id; checked := false |}].

(** The text of a text node as [innerHTML] serializes it. *)
Fixpoint escapeText (s : string) : string :=
  match s with
  | EmptyString => EmptyString
  | String c rest =>
      if Ascii.eqb c "&" then String.append "&amp;" (escapeText rest)
      else if Ascii.eqb c "<" then String.append "&lt;" (escapeText rest)
      else if Ascii.eqb c ">" then String.append "&gt;" (escapeText rest)
      else if Ascii.eqb c (ascii_of_nat 194) then
        match rest with
        | String c2 rest2 =>
            if Ascii.eqb c2 (ascii_of_nat 160)
            then String.append "&nbsp;" (escapeText rest2)
            else String c (escapeText rest)
        | EmptyString => String c EmptyString
        end
      else String c (escapeText rest)
  end.

(** ** The widget *)

Record WaveEventForm := {
  startTime_ : option Z;
  endTime_ : option Z;
  (** set of channel names selected *)
  selectedChannels_ : JsSet.t;
  (** all the channel names *)
  allChannels_ : list string
}.

Definition set_startTime_ (v : option Z) (f : WaveEventForm) : WaveEventForm :=
  {| startTime_ := v;
     endTime_ := endTime_ f;
     selectedChannels_ := selectedChannels_ f;
     allChannels_ := allChannels_ f |}.

Definition set_endTime_ (v : option Z) (f : WaveEventForm) : WaveEventForm :=
  {| startTime_ := startTime_ f;
     endTime_ := v;
     selectedChannels_ := selectedChannels_ f;
     allChannels_ := allChannels_ f |}.

Definition set_selectedChannels_ (v : JsSet.t) (f : WaveEventForm)
  : WaveEventForm :=
  {| startTime_ := startTime_ f;
     endTime_ := endTime_ f;
     selectedChannels_ := v;
     allChannels_ := allChannels_ f |}.

Definition set_allChannels_ (v : list string) (f : WaveEventForm)
  : WaveEventForm :=
  {| startTime_ := startTime_ f;
     endTime_ := endTime_ f;
     selectedChannels_ := selectedChannels_ f;
     allChannels_ := v |}.

(** The fields as the constructor leaves them. *)
Definition constructor : WaveEventForm :=
  {| startTime_ := None;
     endTime_ := None;
     selectedChannels_ := JsSet.empty;
     allChannels_ := [] |}.

(** The widget, the page, and the actions sent to the dispatcher so far
    (oldest first). *)
Record World := {
  widget : WaveEventForm;
  dom : Dom;
  sent : list Action
}.

Definition onWidget (f : WaveEventForm -> WaveEventForm) (w : World) : World :=
  {| widget := f (widget w); dom := dom w; sent := sent w |}.

Definition onDom (f : Dom -> Dom) (w : World) : World :=
  {| widget := widget w; dom := f (dom w); sent := sent w |}.

(** [Dispatcher.getInstance().sendAction(a)]: what the dispatcher does with
    the action is its own business; the world records that it was sent. *)
Definition sendAction (a : Action) (w : World) : World :=
  {| widget := widget w; dom := dom w; sent := sent w ++ [a] |}.

Definition defaultFormWidth : Z := 330.

Definition defaultFormHeight : Z := 487.

Definition getChannelCheckboxId_ (channelName : string) : string :=
  String.append "wave-event-channel-" channelName.

(** Sets the form position considering where the click was. [left_] and
    [top_] are the source's [left] and [top]. *)
Definition setWaveEventFormPosition_ (xPos yPos : Z) (d : Dom) : Dom :=
  let waveEventForm := form d in
  let formWidth := orDefault (offsetWidth waveEventForm) defaultFormWidth in
  let formHeight := orDefault (offsetHeight waveEventForm) defaultFormHeight in
  let left_ := xPos - formWidth - 20 in
  let top_ := yPos in
  let movedLeft := false in
  let '(left_, top_, movedLeft) :=
    if left_ <? 0 then (xPos + 10, yPos + 80, true)
    else (left_, top_, movedLeft) in
  let verticalLimit := innerHeight d - formHeight - 100 in
  let top_ :=
    if top_ >? verticalLimit then
      let verticalMovement := if movedLeft then 200 else 20 in
      yPos - formHeight - verticalMovement
    else top_ in
  set_form (set_style left_ top_ waveEventForm) d.

(** [document.querySelectorAll('#wave-event-channels label')], each label
    toggled. *)
Definition toggleAllChannelCheckboxes_ (v : bool) (d : Dom) : Dom :=
  let toggle := map (fun label => toggleMDLCheckbox label v) in
  set_containerLabels (toggle (containerLabels d))
    (set_staticLabels (toggle (staticLabels d)) d).

Fixpoint toggleNth (i : nat) (v : bool) (ls : list Checkbox)
  : list Checkbox :=
  match ls, i with
  | [], _ => []
  | c :: rest, O => toggleMDLCheckbox c v :: rest
  | c :: rest, S j => c :: toggleNth j v rest
  end.

(** [utils.toggleMDLCheckbox(element, v)] on the element
    [document.querySelector] returned. With [null], or with an element that
    is not one of the labels, there is no box of [#wave-event-channels] to
    toggle and the page stays as it is; in each caller this is the last
    statement, after the widget's fields are written. *)
Definition toggleElement (element : option nat) (v : bool) (d : Dom) : Dom :=
  match element with
  | None => d
  | Some i =>
      let n := List.length (staticLabels d) in
      if (i <? n)%nat
      then set_staticLabels (toggleNth i v (staticLabels d)) d
      else set_containerLabels (toggleNth (i - n) v (containerLabels d)) d
  end.

Definition markChannelSelected (channelName : string)
    (channelLabelElement : option nat) (w : World) : World :=
  let w :=
    onWidget (fun this =>
      set_selectedChannels_ (JsSet.add (selectedChannels_ this) channelName)
        this) w in
  onDom (toggleElement channelLabelElement true) w.

Definition markChannelUnselected (channelName : string)
    (channelLabelElement : option nat) (w : World) : World :=
  let w :=
    onWidget (fun this =>
      set_selectedChannels_ (JsSet.delete (selectedChannels_ this) channelName)
        this) w in
  onDom (toggleElement channelLabelElement false) w.

Section Methods.

Context {formatter : Formatter} {montages : Montages}
        {engine : SelectorEngine}.

(** Handles a click in a point value in the graph. A snapshot without a
    click has nothing to destructure: the handler stops at its first
    statement. The label of the clicked channel is looked up before the
    branches; when that throws, the handler stops there, with nothing
    written. *)
Definition handleGraphPointClick (store : StoreData) (w : World) : World :=
  match graphPointClick store with
  | None => w
  | Some click =>
      let prettyTime :=
        formatTime (jsAdd (absStart store) (timeValue click)) true in
      let isFirstClick := isNull (startTime_ (widget w)) in
      let isSecondClick :=
        negb isFirstClick && isNull (endTime_ (widget w)) in
      match
        queryLabelFor (getChannelCheckboxId_ (channelName click)) (dom w)
      with
      | QueryThrows => w
      | QueryFinds channelLabelElement =>
          if isFirstClick then
            let w := onDom (set_startTimeInput prettyTime) w in
            let w := onDom (set_endTimeInput "") w in
            let w :=
              onDom (setWaveEventFormPosition_ (xPos click) (yPos click)) w in
            let w :=
              onDom (fun d => set_form (set_hidden false (form d)) d) w in
            let w := onWidget (set_startTime_ (Some (timeValue click))) w in
            markChannelSelected (channelName click) channelLabelElement w
          else if isSecondClick
                  && (timeValue click >? toNumber (startTime_ (widget w)))
          then
            let w := onDom (set_endTimeInput prettyTime) w in
            let w := onWidget (set_endTime_ (Some (timeValue click))) w in
            markChannelSelected (channelName click) channelLabelElement w
          else
            if JsSet.has (selectedChannels_ (widget w)) (channelName click)
            then
              markChannelUnselected (channelName click) channelLabelElement w
            else markChannelSelected (channelName click) channelLabelElement w
      end
  end.

(** The lookup of the label of [channelName] on page [d] does not throw. *)
Definition lookupRuns (channelName : string) (d : Dom) : Prop :=
  queryLabelFor (getChannelCheckboxId_ channelName) d <> QueryThrows.

(** Selects a wave event type: [dropdown.textContent = type]. *)
Definition selectType (type : string) (w : World) : World :=
  onDom (set_typeDropdown (escapeText type)) w.

(** Closes the form and clears the clicks previously made. *)
Definition close (w : World) : World :=
  let w := onDom (set_startTimeInput "") w in
  let w := onDom (set_endTimeInput "") w in
  let w := onDom (toggleAllChannelCheckboxes_ false) w in
  let w := onWidget (set_startTime_ None) w in
  let w := onWidget (set_endTime_ None) w in
  let w :=
    onWidget (fun this =>
      set_selectedChannels_ (JsSet.clear (selectedChannels_ this)) this) w in
  onDom (fun d => set_form (set_hidden true (form d)) d) w.

(** The action [save] builds from the fields and the type dropdown. *)
Definition waveEventAction (labelText : string) (startTime endTime : Z)
    (selectedChannels : JsSet.t) : Action :=
  {| actionType := ADD_WAVE_EVENT;
     data := {| labelText := labelText;
                startTime := startTime;
                duration := jsSub endTime startTime;
                channelList := JsSet.toArray selectedChannels |} |}.

(** Saves the wave event determined by the clicks made before. *)
Definition save (w : World) : World :=
  match startTime_ (widget w) with
  | None => w
  | Some startTime =>
      let endTime :=
        match endTime_ (widget w) with
        | None => startTime
        | Some endTime => endTime
        end in
      if endTime <? startTime then w
      else
        let labelText := typeDropdown (dom w) in
        let w :=
          sendAction
            (waveEventAction labelText startTime endTime
               (selectedChannels_ (widget w))) w in
        close w
  end.

(** Handles a click in the "All" checkbox; [checked] is
    [event.target.checked]. *)
Definition toggleAllChannels (checked : bool) (w : World) : World :=
  let w :=
    if checked then
      onWidget (fun this =>
        set_selectedChannels_
          (fold_left JsSet.add (allChannels_ this) (selectedChannels_ this))
          this) w
    else
      onWidget (fun this =>
        set_selectedChannels_ (JsSet.clear (selectedChannels_ this)) this) w in
  onDom (toggleAllChannelCheckboxes_ checked) w.

(** The callback [handleChannelNames] wires to the checkbox of
    [channelName]. *)
Definition checkboxCallback (channelName : string) (checked : bool)
    (w : World) : World :=
  if checked then
    onWidget (fun this =>
      set_selectedChannels_ (JsSet.add (selectedChannels_ this) channelName)
        this) w
  else
    onWidget (fun this =>
      set_selectedChannels_
        (JsSet.delete (selectedChannels_ this) channelName) this) w.

(** Handles a change in the channel configuration: copies the channel
    names and rebuilds the checkbox container. *)
Definition handleChannelNames (store : StoreData) (w : World) : World :=
  match channelIds store, indexChannelMap store with
  | Some ids, Some indexMap =>
      let w :=
        onWidget (set_allChannels_ (channelIndexesToNames ids indexMap)) w in
      let checkboxesContainer : list Checkbox := [] in
      let checkboxesContainer :=
        fold_left
          (fun container channelName =>
             addMDLCheckbox container (getChannelCheckboxId_ channelName))
          (allChannels_ (widget w)) checkboxesContainer in
      onDom (set_containerLabels checkboxesContainer) w
  | _, _ => w
  end.

(** ** Sequences of calls *)

(** What can happen to the widget: a store listener fires, the page calls
    a public method, the user toggles a channel checkbox; and the page
    itself changes outside the widget (a resize, a repaint, typing). *)
Inductive Call :=
| GraphPointClicked (store : StoreData)
| ChannelNamesChanged (store : StoreData)
| SelectType (type : string)
| Close
| Save
| ToggleAllChannels (checked : bool)
| CheckboxToggled (channelName : string) (checked : bool)
| PageChanged (d : Dom).

Definition step (w : World) (c : Call) : World :=
  match c with
  | GraphPointClicked store => handleGraphPointClick store w
  | ChannelNamesChanged store => handleChannelNames store w
  | SelectType type => selectType type w
  | Close => close w
  | Save => save w
  | ToggleAllChannels checked => toggleAllChannels checked w
  | CheckboxToggled channelName checked =>
      checkboxCallback channelName checked w
  | PageChanged d => onDom (fun _ => d) w
  end.

Definition run (calls : list Call) (w : World) : World :=
  fold_left step calls w.

(** The world right after [new WaveEventForm()] on page [d]. *)
Definition fresh (d : Dom) : World :=
  {| widget := constructor; dom := d; sent := [] |}.

Definition reachable (w : World) : Prop :=
  exists d calls, w = run calls (fresh d).

(** The selection state: the three fields [close] resets. *)
Definition selectionState (w : World) : option Z * option Z * JsSet.t :=
  (startTime_ (widget w), endTime_ (widget w),
   selectedChannels_ (widget w)).

End Methods.

(** ** Sample collaborators and pages *)

(** A formatter for the examples: the timestamp in decimal, followed by
    an "s" when the pretty flag is set. *)
Definition sampleFormatter : Formatter :=
  {| formatTime := fun t pretty =>
       String.append (NilZero.string_of_int (Z.to_int t))
         (if pretty then "s" else "") |}.

(** A montage for the examples: each id is looked up in the index map and
    kept as it is when the map does not have it. *)
Definition sampleMontages : Montages :=
  {| channelIndexesToNames := fun ids indexMap =>
       map (fun id =>
              match find (fun kv => String.eqb (fst kv) id) indexMap with
              | Some kv => snd kv
              | None => id
              end) ids |}.

Lemma cssBroken_not_plain (s : string) :
  cssBroken s = true -> cssPlain s = false.
Proof.
  induction s as [ | c rest IH]; simpl; intros H.
  - discriminate.
  - unfold isLineBreak, cssPlainChar in *.
    destruct (Ascii.eqb c (ascii_of_nat 10)); [now rewrite !andb_false_r | ].
    destruct (Ascii.eqb c (ascii_of_nat 13)); [now rewrite !andb_false_r | ].
    destruct (Ascii.eqb c (ascii_of_nat 12)); [now rewrite !andb_false_r | ].
    simpl in H.
    destruct (Ascii.eqb c (ascii_of_nat 34)); [reflexivity | ].
    apply andb_true_iff in H. destruct H as [_ H].
    rewrite (IH H). apply andb_false_r.
Qed.

(** A selector engine for the examples. It reads a plain id as the
    attribute selector it looks like and rejects every other id; a browser
    accepts some of those (it reads a backslash as an escape, and a quote
    followed by the rest of a selector as that selector). *)
Definition sampleQuery (id : string) (d : Dom) : QueryResult :=
  if cssPlain id then QueryFinds (indexOfLabel id (channelLabels d))
  else QueryThrows.

Lemma sampleQuery_plain (id : string) (d : Dom) :
  cssPlain id = true ->
  sampleQuery id d = QueryFinds (indexOfLabel id (channelLabels d)).
Proof.
  intros H. unfold sampleQuery. now rewrite H.
Qed.

Lemma sampleQuery_broken (id : string) (d : Dom) :
  cssBroken id = true -> sampleQuery id d = QueryThrows.
Proof.
  intros H. unfold sampleQuery. now rewrite (cssBroken_not_plain id H).
Qed.

Definition sampleEngine : SelectorEngine :=
  {| queryLabelFor := sampleQuery;
     queryLabelFor_plain := sampleQuery_plain;
     queryLabelFor_broken := sampleQuery_broken |}.

(** A page whose form is still hidden, in a window 800 pixels high, with an
    "All" label outside the checkbox container. *)
Definition samplePage : Dom :=
  {| form := {| hidden := true;
                renderedWidth := 330;
                renderedHeight := 487;
                styleLeft := None;
                styleTop := None |};
     startTimeInput := "";
     endTimeInput := "";
     typeDropdown := "SZ";
     staticLabels :=
       [{| forId := "wave-event-channel-all"; checked := false |}];
     containerLabels := [];
     innerHeight := 800 |}.

Definition clickAt (t : Z) (name : string) (x y : Z) : StoreData :=
  {| graphPointClick :=
       Some {| timeValue := t; channelName := name; xPos := x; yPos := y |};
     absStart := 0;
     channelIds := None;
     indexChannelMap := None |}.

Definition channelsUpdate (ids : list string) (indexMap : IndexChannelMap)
  : StoreData :=
  {| graphPointClick := None;
     absStart := 0;
     channelIds := Some ids;
     indexChannelMap := Some indexMap |}.

(** Calls made on a fresh widget on the sample page, with the sample
    collaborators. *)
Definition sampleRun (calls : list Call) : World :=
  @run sampleFormatter sampleMontages sampleEngine calls (fresh samplePage).

(** The store announces the channels Fp1 and Cz. *)
Definition sampleChannels : StoreData :=
  channelsUpdate ["0"; "1"] [("0", "Fp1"); ("1", "Cz")].

(** The channels are known; one click at time 10 on channel Fp1. *)
Definition firstClickCalls : list Call :=
  [ChannelNamesChanged sampleChannels;
   GraphPointClicked (clickAt 10 "Fp1" 50 100)].

Definition afterFirstClick : World := sampleRun firstClickCalls.

(** A second click, at time 25 on channel Cz. *)
Definition secondClickCalls : list Call :=
  firstClickCalls ++ [GraphPointClicked (clickAt 25 "Cz" 400 300)].

Definition afterSecondClick : World := sampleRun secondClickCalls.

(** The channels are known and nothing is clicked yet. *)
Definition channelsKnown : World :=
  sampleRun [ChannelNamesChanged sampleChannels].

(** Two clicks and a [save]. *)
Definition afterSave : World := sampleRun (secondClickCalls ++ [Save]).

(** A snapshot with channel ids and no index map yet. *)
Definition partialSnapshot : StoreData :=
  {| graphPointClick := None;
     absStart := 0;
     channelIds := Some ["0"; "1"];
     indexChannelMap := None |}.


(** A channel name with a double quote in it: a, the quote, b. *)
Definition quotedName : string :=
  String "a" (String (ascii_of_nat 34) "b").

(** Fields no sequence of calls produces: an end time before the start
    time. *)
Definition invertedInterval : World :=
  {| widget := {| startTime_ := Some 5;
                  endTime_ := Some 3;
                  selectedChannels_ := ["Fp1"];
                  allChannels_ := [] |};
     dom := samplePage;
     sent := [] |}.

(** ** The widget's invariant *)

(** The end time, once set, lies strictly after the start time. *)
Definition endAfterStart (this : WaveEventForm) : Prop :=
  forall e, endTime_ this = Some e ->
            exists s, startTime_ this = Some s /\ s < e.

(** ** The positioning, step by step

    The width and height [setWaveEventFormPosition_] works with. *)
Definition formWidthOf (d : Dom) : Z :=
  if offsetWidth (form d) =? 0 then 330 else offsetWidth (form d).

Definition formHeightOf (d : Dom) : Z :=
  if offsetHeight (form d) =? 0 then 487 else offsetHeight (form d).

(** Where the first two steps of the positioning put the top edge, and
    whether they moved the form to the right of the click. *)
Definition movedRight (xPos : Z) (d : Dom) : bool :=
  xPos - formWidthOf d - 20 <? 0.

Definition computedTop (xPos yPos : Z) (d : Dom) : Z :=
  if movedRight xPos d then yPos + 80 else yPos.

(** The vertical overflow step read as a shift of the computed top: up by
    the form's height plus 200 when the form was moved to the right, plus 20
    otherwise. *)
Definition overflowShiftsComputedTop (xPos yPos : Z) (d : Dom) : Prop :=
  computedTop xPos yPos d > innerHeight d - formHeightOf d - 100 ->
  styleTop (form (setWaveEventFormPosition_ xPos yPos d))
  = Some (computedTop xPos yPos d
          - (formHeightOf d + (if movedRight xPos d then 200 else 20))).

(** ** Reading the page and the log *)

(** The label an element of a query stands for, if it is one of the labels
    of [#wave-event-channels]. *)
Definition labelOf (element : option nat) (d : Dom) : option Checkbox :=
  match element with
  | None => None
  | Some i => nth_error (channelLabels d) i
  end.

(** A click when the start time is set, with the end time set too or a
    time not after the start, toggles its channel whatever the channel is
    called. *)
Definition everyLateClickToggles
    {formatter : Formatter} {engine : SelectorEngine} : Prop :=
  forall (store : StoreData) (click : GraphPointClick) (w : World) (s : Z),
    graphPointClick store = Some click ->
    startTime_ (widget w) = Some s ->
    endTime_ (widget w) <> None \/ timeValue click <= s ->
    JsSet.has
      (selectedChannels_ (widget (handleGraphPointClick store w)))
      (channelName click)
    = negb (JsSet.has (selectedChannels_ (widget w)) (channelName click)).


(** A text in which [innerHTML] has nothing to escape: no ampersand, no
    angle bracket, no non-breaking space. *)
Fixpoint plainText (s : string) : bool :=
  match s with
  | EmptyString => true
  | String c rest =>
      negb (Ascii.eqb c "&") && negb (Ascii.eqb c "<")
      && negb (Ascii.eqb c ">")
      && negb (Ascii.eqb c (ascii_of_nat 194)
               && match rest with
                  | String c2 _ => Ascii.eqb c2 (ascii_of_nat 160)
                  | EmptyString => false
                  end)
      && plainText rest
  end.

(** How many of the calls are [save]. *)
Definition countSaves (calls : list Call) : nat :=
  List.length
    (filter (fun c => match c with Save => true | _ => false end) calls).

(** An action as the dispatcher expects it: a wave event that does not end
    before it starts and names no channel twice. *)
Definition wellFormedAction (a : Action) : Prop :=
  actionType a = ADD_WAVE_EVENT
  /\ 0 <= duration (data a)
  /\ NoDup (channelList (data a)).

(** The ids of the checkboxes of a list of channels. *)
Definition checkboxIdsOf (names : list string) : list string :=
  map getChannelCheckboxId_ names.

(** * Properties *)

(** ** Sets of channel names *)

Lemma JsSet_has_In (s : JsSet.t) (x : string) :
  JsSet.has s x = true <-> In x s.
Proof.
  unfold JsSet.has. rewrite existsb_exists. split.
  - intros [y [Hy Heq]]. apply String.eqb_eq in Heq. now subst.
  - intros Hin. exists x. split; [assumption | apply String.eqb_refl].
Qed.

Lemma JsSet_has_false (s : JsSet.t) (x : string) :
  JsSet.has s x = false <-> ~ In x s.
Proof.
  rewrite <- JsSet_has_In. destruct (JsSet.has s x); split; congruence.
Qed.

Lemma JsSet_add_In (s : JsSet.t) (x y : string) :
  In y (JsSet.add s x) <-> In y s \/ y = x.
Proof.
  unfold JsSet.add. destruct (JsSet.has s x) eqn:Hx.
  - apply JsSet_has_In in Hx. split; [now left | ].
    intros [H | ->]; assumption.
  - rewrite in_app_iff. simpl. split.
    + intros [H | [H | []]]; [now left | now right].
    + intros [H | H]; [now left | right; now left].
Qed.

Lemma JsSet_delete_In (s : JsSet.t) (x y : string) :
  In y (JsSet.delete s x) <-> In y s /\ y <> x.
Proof.
  unfold JsSet.delete. rewrite filter_In. split.
  - intros [Hin Hneq]. split; [assumption | ].
    intros ->. rewrite String.eqb_refl in Hneq. discriminate.
  - intros [Hin Hneq]. split; [assumption | ].
    destruct (String.eqb x y) eqn:E; [ | reflexivity].
    apply String.eqb_eq in E. congruence.
Qed.

Lemma JsSet_has_add (s : JsSet.t) (x y : string) :
  JsSet.has (JsSet.add s x) y = JsSet.has s y || String.eqb y x.
Proof.
  apply eq_true_iff_eq.
  rewrite orb_true_iff, !JsSet_has_In, JsSet_add_In, String.eqb_eq.
  reflexivity.
Qed.

Lemma JsSet_has_delete (s : JsSet.t) (x y : string) :
  JsSet.has (JsSet.delete s x) y = JsSet.has s y && negb (String.eqb y x).
Proof.
  apply eq_true_iff_eq.
  rewrite andb_true_iff, negb_true_iff, !JsSet_has_In, JsSet_delete_In.
  rewrite String.eqb_neq. reflexivity.
Qed.

Lemma JsSet_fold_add_In (names : list string) (s : JsSet.t) (y : string) :
  In y (fold_left JsSet.add names s) <-> In y s \/ In y names.
Proof.
  revert s. induction names as [ | x names IH]; intros s; simpl.
  - tauto.
  - rewrite IH, JsSet_add_In. intuition congruence.
Qed.

Lemma JsSet_add_NoDup (s : JsSet.t) (x : string) :
  NoDup s -> NoDup (JsSet.add s x).
Proof.
  intros Hs. unfold JsSet.add. destruct (JsSet.has s x) eqn:Hx; [assumption | ].
  apply JsSet_has_false in Hx.
  apply NoDup_app; [assumption | repeat constructor; intros [] | ].
  intros a Ha [<- | []]. contradiction.
Qed.

Lemma JsSet_delete_NoDup (s : JsSet.t) (x : string) :
  NoDup s -> NoDup (JsSet.delete s x).
Proof.
  intros Hs. unfold JsSet.delete. now apply NoDup_filter.
Qed.

Lemma JsSet_fold_add_NoDup (names : list string) (s : JsSet.t) :
  NoDup s -> NoDup (fold_left JsSet.add names s).
Proof.
  revert s. induction names as [ | x names IH]; intros s Hs; simpl.
  - assumption.
  - apply IH. now apply JsSet_add_NoDup.
Qed.

(** ** What each method does to the fields *)

Lemma markChannelSelected_widget (c : string) (element : option nat)
    (w : World) :
  widget (markChannelSelected c element w)
  = set_selectedChannels_ (JsSet.add (selectedChannels_ (widget w)) c)
      (widget w).
Proof. reflexivity. Qed.

Lemma markChannelUnselected_widget (c : string) (element : option nat)
    (w : World) :
  widget (markChannelUnselected c element w)
  = set_selectedChannels_ (JsSet.delete (selectedChannels_ (widget w)) c)
      (widget w).
Proof. reflexivity. Qed.

Lemma markChannelSelected_sent (c : string) (element : option nat)
    (w : World) :
  sent (markChannelSelected c element w) = sent w.
Proof. reflexivity. Qed.

Lemma markChannelUnselected_sent (c : string) (element : option nat)
    (w : World) :
  sent (markChannelUnselected c element w) = sent w.
Proof. reflexivity. Qed.

(** ** Text without markup *)

Lemma escapeText_plain (s : string) :
  plainText s = true -> escapeText s = s.
Proof.
  induction s as [ | c rest IH]; intros Hplain.
  - reflexivity.
  - cbn [plainText] in Hplain.
    apply andb_true_iff in Hplain. destruct Hplain as [Hplain Hrest].
    apply andb_true_iff in Hplain. destruct Hplain as [Hplain Hnbsp].
    apply andb_true_iff in Hplain. destruct Hplain as [Hplain Hgt].
    apply andb_true_iff in Hplain. destruct Hplain as [Hamp Hlt].
    apply negb_true_iff in Hamp, Hlt, Hgt, Hnbsp.
    cbn [escapeText]. rewrite Hamp, Hlt, Hgt.
    destruct (Ascii.eqb c (ascii_of_nat 194)).
    + destruct rest as [ | c2 rest2]; [reflexivity | ].
      cbn [andb] in Hnbsp. rewrite Hnbsp. now rewrite (IH Hrest).
    + now rewrite (IH Hrest).
Qed.

(** ** Rounding to a double *)

Lemma roundDouble_exact (z : Z) :
  Z.abs z < 2 ^ 53 -> roundDouble z = z.
Proof.
  intros Hz. unfold roundDouble.
  assert (Hbits : (Z.log2 (Z.abs z) + 1 <=? 53) = true).
  { apply Z.leb_le.
    destruct (Z.eq_dec (Z.abs z) 0) as [E | E].
    - rewrite E. simpl. lia.
    - assert (0 < Z.abs z) by (pose proof (Z.abs_nonneg z); lia).
      assert (Z.log2 (Z.abs z) < 53) by (apply Z.log2_lt_pow2; lia).
      lia. }
  cbv zeta. now rewrite Hbits.
Qed.

Lemma roundDouble_nonneg (z : Z) :
  0 <= z -> 0 <= roundDouble z.
Proof.
  intros Hz. unfold roundDouble. cbv zeta.
  destruct (Z.log2 (Z.abs z) + 1 <=? 53) eqn:Hbits; [assumption | ].
  apply Z.leb_gt in Hbits.
  set (unit := 2 ^ (Z.log2 (Z.abs z) + 1 - 53)).
  assert (Hunit : 0 < unit) by (apply Z.pow_pos_nonneg; lia).
  assert (Hq : 0 <= Z.abs z / unit)
    by (apply Z.div_pos; [apply Z.abs_nonneg | assumption]).
  apply Z.mul_nonneg_nonneg; [now apply Z.sgn_nonneg | ].
  apply Z.mul_nonneg_nonneg; [ | lia].
  destruct (_ <? _); [assumption | ].
  destruct (_ <? _); [lia | ].
  destruct (Z.even _); lia.
Qed.


Lemma jsSub_exact (a b : Z) :
  Z.abs (a - b) < 2 ^ 53 -> jsSub a b = a - b.
Proof.
  apply roundDouble_exact.
Qed.

Lemma jsSub_nonneg (a b : Z) : b <= a -> 0 <= jsSub a b.
Proof.
  intros H. apply roundDouble_nonneg. lia.
Qed.

Lemma close_widget (w : World) :
  widget (close w)
  = {| startTime_ := None;
       endTime_ := None;
       selectedChannels_ := JsSet.empty;
       allChannels_ := allChannels_ (widget w) |}.
Proof. reflexivity. Qed.

Lemma close_sent (w : World) : sent (close w) = sent w.
Proof. reflexivity. Qed.

Lemma map_toggle_idem (v : bool) (ls : list Checkbox) :
  map (fun label => toggleMDLCheckbox label v)
    (map (fun label => toggleMDLCheckbox label v) ls)
  = map (fun label => toggleMDLCheckbox label v) ls.
Proof.
  rewrite map_map. apply map_ext. intros c. reflexivity.
Qed.

Lemma toggleAllChannelCheckboxes_idem (v : bool) (d : Dom) :
  toggleAllChannelCheckboxes_ v (toggleAllChannelCheckboxes_ v d)
  = toggleAllChannelCheckboxes_ v d.
Proof.
  unfold toggleAllChannelCheckboxes_, set_containerLabels, set_staticLabels.
  simpl. now rewrite !map_toggle_idem.
Qed.

(** [save] in one equation: nothing without a start time or behind the
    guard, otherwise one action and a [close]. *)
Lemma save_unfold (w : World) :
  save w =
  match startTime_ (widget w) with
  | None => w
  | Some s =>
      let e := match endTime_ (widget w) with Some e => e | None => s end in
      if e <? s then w
      else close (sendAction
                    (waveEventAction (typeDropdown (dom w)) s e
                       (selectedChannels_ (widget w))) w)
  end.
Proof. reflexivity. Qed.

Section Properties.

Context {formatter : Formatter} {montages : Montages}
        {engine : SelectorEngine}.

Lemma handleGraphPointClick_endAfterStart (store : StoreData) (w : World) :
  endAfterStart (widget w) ->
  endAfterStart (widget (handleGraphPointClick store w)).
Proof.
  intros Hinv. unfold handleGraphPointClick.
  destruct (graphPointClick store) as [click | ]; [ | assumption].
  destruct (queryLabelFor _ _) as [ | element]; [assumption | ].
  destruct (startTime_ (widget w)) as [s | ] eqn:Hs; simpl.
  - destruct (endTime_ (widget w)) as [e | ] eqn:He; simpl.
    + destruct (JsSet.has _ _); intros e' He'; simpl in *;
        destruct (Hinv e' He') as [s' [Hs' Hlt]];
        exists s'; (split; [congruence | assumption]).
    + destruct (timeValue click >? s) eqn:Hgt.
      * intros e' He'. simpl in *. rewrite Hs. exists s.
        split; [reflexivity | ]. injection He' as <-.
        apply Z.gtb_lt in Hgt. lia.
      * destruct (JsSet.has _ _); intros e' He'; simpl in *; congruence.
  - intros e' He'. simpl in *. apply Hinv in He'.
    destruct He' as [s [Hs' _]]. congruence.
Qed.

Lemma save_endAfterStart (w : World) :
  endAfterStart (widget w) -> endAfterStart (widget (save w)).
Proof.
  intros Hinv. rewrite save_unfold.
  destruct (startTime_ (widget w)) as [s | ]; [ | assumption].
  cbv zeta. destruct (_ <? s); [assumption | ].
  intros e He. rewrite close_widget in He. discriminate.
Qed.

Lemma step_endAfterStart (w : World) (c : Call) :
  endAfterStart (widget w) -> endAfterStart (widget (step w c)).
Proof.
  intros Hinv. destruct c as [store | store | type | | | v | c v | d]; simpl.
  - now apply handleGraphPointClick_endAfterStart.
  - unfold handleChannelNames.
    destruct (channelIds store), (indexChannelMap store); assumption.
  - assumption.
  - intros e He. discriminate.
  - now apply save_endAfterStart.
  - destruct v; assumption.
  - destruct v; assumption.
  - assumption.
Qed.

Lemma run_endAfterStart (calls : list Call) (w : World) :
  endAfterStart (widget w) -> endAfterStart (widget (run calls w)).
Proof.
  revert w. induction calls as [ | c calls IH]; intros w Hinv; simpl.
  - assumption.
  - apply IH. now apply step_endAfterStart.
Qed.

Lemma reachable_endAfterStart (w : World) :
  reachable w -> endAfterStart (widget w).
Proof.
  intros [d [calls ->]]. apply run_endAfterStart.
  intros e He. discriminate.
Qed.

(** In a reachable world the guard of [save] lets the call through. *)
Lemma reachable_guard (w : World) (s : Z) :
  reachable w -> startTime_ (widget w) = Some s ->
  (match endTime_ (widget w) with Some e => e | None => s end <? s) = false.
Proof.
  intros Hr Hs. apply reachable_endAfterStart in Hr.
  apply Z.ltb_ge. destruct (endTime_ (widget w)) as [e | ] eqn:He.
  - destruct (Hr e He) as [s' [Hs' Hlt]]. rewrite Hs in Hs'.
    injection Hs' as <-. lia.
  - lia.
Qed.

(** The selection never holds a name twice: the list is a set. *)
Lemma handleGraphPointClick_NoDup (store : StoreData) (w : World) :
  NoDup (selectedChannels_ (widget w)) ->
  NoDup (selectedChannels_ (widget (handleGraphPointClick store w))).
Proof.
  intros Hsel. unfold handleGraphPointClick.
  destruct (graphPointClick store) as [click | ]; [ | assumption].
  destruct (queryLabelFor _ _) as [ | element]; [assumption | ].
  destruct (isNull (startTime_ (widget w))); simpl.
  - now apply JsSet_add_NoDup.
  - destruct (isNull (endTime_ (widget w)) && _); simpl.
    + now apply JsSet_add_NoDup.
    + destruct (JsSet.has _ _); simpl.
      * now apply JsSet_delete_NoDup.
      * now apply JsSet_add_NoDup.
Qed.

Lemma step_NoDup (w : World) (c : Call) :
  NoDup (selectedChannels_ (widget w)) ->
  NoDup (selectedChannels_ (widget (step w c))).
Proof.
  intros Hsel. destruct c as [store | store | type | | | v | c v | d]; simpl.
  - now apply handleGraphPointClick_NoDup.
  - unfold handleChannelNames.
    destruct (channelIds store), (indexChannelMap store); assumption.
  - assumption.
  - constructor.
  - rewrite save_unfold. destruct (startTime_ (widget w)); [ | assumption].
    cbv zeta. destruct (_ <? _); [assumption | constructor].
  - destruct v; simpl; [now apply JsSet_fold_add_NoDup | constructor].
  - destruct v; simpl;
      [now apply JsSet_add_NoDup | now apply JsSet_delete_NoDup].
  - assumption.
Qed.

Lemma reachable_NoDup (w : World) :
  reachable w -> NoDup (selectedChannels_ (widget w)).
Proof.
  intros [d [calls ->]].
  assert (H : forall w0, NoDup (selectedChannels_ (widget w0)) ->
                         NoDup (selectedChannels_ (widget (run calls w0)))).
  { induction calls as [ | c calls IH]; intros w0 Hsel; simpl.
    - assumption.
    - apply IH. now apply step_NoDup. }
  apply H. constructor.
Qed.

(** The lookup runs for every plain channel name, on every page. *)
Lemma plain_lookupRuns (name : string) (d : Dom) :
  cssPlain name = true -> lookupRuns name d.
Proof.
  intros Hplain. unfold lookupRuns.
  rewrite queryLabelFor_plain; [discriminate | ].
  unfold getChannelCheckboxId_. simpl. exact Hplain.
Qed.

(** A click whose lookup throws leaves the world as it was. *)
Lemma click_that_throws (store : StoreData) (click : GraphPointClick)
    (w : World) :
  graphPointClick store = Some click ->
  queryLabelFor (getChannelCheckboxId_ (channelName click)) (dom w)
  = QueryThrows ->
  handleGraphPointClick store w = w.
Proof.
  intros Hclick Hquery. unfold handleGraphPointClick.
  now rewrite Hclick, Hquery.
Qed.

(** ** The widget's contract *)


(** C2. In every state reachable from the freshly constructed widget by
    any sequence of calls, a non-null end time comes with a non-null start
    time that is strictly smaller. *)
Theorem endTime_strictly_after_startTime (w : World) (e : Z) :
  reachable w ->
  endTime_ (widget w) = Some e ->
  exists s, startTime_ (widget w) = Some s /\ s < e.
Proof.
  intros Hr He. exact (reachable_endAfterStart w Hr e He).
Qed.

(** C4. Without a start time [save] does nothing: no action is sent and
    the fields (and the page) are as before. *)
Theorem save_without_start_is_noop (w : World) :
  startTime_ (widget w) = None ->
  save w = w
  /\ sent (save w) = sent w
  /\ startTime_ (widget (save w)) = startTime_ (widget w)
  /\ endTime_ (widget (save w)) = endTime_ (widget w)
  /\ selectedChannels_ (widget (save w)) = selectedChannels_ (widget w)
  /\ allChannels_ (widget (save w)) = allChannels_ (widget w).
Proof.
  intros Hs.
  assert (Hsave : save w = w) by (rewrite save_unfold, Hs; reflexivity).
  rewrite Hsave. repeat split.
Qed.

(** C9. [save] returns without sending when the end time is before the
    start time, and that branch is never taken: in every reachable state
    with a start time, the end time in effect is not before it, and [save]
    sends its action. *)
Theorem save_guard_is_never_taken (w : World) (s : Z) :
  startTime_ (widget w) = Some s ->
  (forall e, endTime_ (widget w) = Some e -> e < s ->
             save w = w /\ sent (save w) = sent w)
  /\ (reachable w ->
      let e := match endTime_ (widget w) with Some e => e | None => s end in
      s <= e
      /\ sent (save w)
         = sent w ++ [waveEventAction (typeDropdown (dom w)) s e
                        (selectedChannels_ (widget w))]).
Proof.
  intros Hs. split.
  - intros e He Hlt.
    assert (Hsave : save w = w).
    { rewrite save_unfold, Hs, He. cbv zeta.
      apply Z.ltb_lt in Hlt. now rewrite Hlt. }
    now rewrite Hsave.
  - intros Hr e. pose proof (reachable_guard w s Hr Hs) as Hg.
    fold e in Hg. split.
    + apply Z.ltb_ge in Hg. exact Hg.
    + rewrite save_unfold, Hs. cbv zeta. fold e. rewrite Hg.
      now rewrite close_sent.
Qed.

(** C3, as the code has it. A click whose label lookup does not throw
    (as for every channel name without a double quote, a backslash, a line
    break or a NUL), arriving when the start time is set and either the end time
    is set too or the click is not after the start time, leaves both times
    as they are and toggles the clicked channel in the selection: removed if
    it was there, added if it was not. *)
Theorem click_after_start_toggles_channel
    (store : StoreData) (click : GraphPointClick) (w : World) (s : Z) :
  graphPointClick store = Some click ->
  lookupRuns (channelName click) (dom w) ->
  startTime_ (widget w) = Some s ->
  endTime_ (widget w) <> None \/ timeValue click <= s ->
  let c := channelName click in
  let sel := selectedChannels_ (widget w) in
  let w' := handleGraphPointClick store w in
  startTime_ (widget w') = startTime_ (widget w)
  /\ endTime_ (widget w') = endTime_ (widget w)
  /\ selectedChannels_ (widget w')
     = (if JsSet.has sel c then JsSet.delete sel c else JsSet.add sel c)
  /\ JsSet.has (selectedChannels_ (widget w')) c = negb (JsSet.has sel c)
  /\ (forall other, other <> c ->
        JsSet.has (selectedChannels_ (widget w')) other
        = JsSet.has sel other).
Proof.
  intros Hclick Hrun Hs Hcase c sel w'.
  assert (Hw' : widget w'
                = set_selectedChannels_
                    (if JsSet.has sel c then JsSet.delete sel c
                     else JsSet.add sel c) (widget w)).
  { subst w'. unfold handleGraphPointClick. rewrite Hclick.
    destruct (queryLabelFor _ _) as [ | element] eqn:Hquery;
      [exfalso; exact (Hrun Hquery) | ].
    rewrite Hs. simpl.
    assert (Hsecond : isNull (endTime_ (widget w)) && (timeValue click >? s)
                      = false).
    { destruct Hcase as [He | Hle].
      - destruct (endTime_ (widget w)); [reflexivity | congruence].
      - apply andb_false_iff. right.
        destruct (timeValue click >? s) eqn:Hgt; [ | reflexivity].
        apply Z.gtb_lt in Hgt. lia. }
    rewrite Hsecond. fold c. fold sel.
    destruct (JsSet.has sel c); reflexivity. }
  rewrite Hw'. simpl. repeat split.
  - destruct (JsSet.has sel c) eqn:Hc.
    + rewrite JsSet_has_delete, String.eqb_refl, Hc. reflexivity.
    + rewrite JsSet_has_add, String.eqb_refl, Hc. reflexivity.
  - intros other Hother. apply String.eqb_neq in Hother.
    destruct (JsSet.has sel c).
    + rewrite JsSet_has_delete, Hother. apply andb_true_r.
    + rewrite JsSet_has_add, Hother. apply orb_false_r.
Qed.

(** C7. After [close] the selection state is that of a freshly
    constructed widget (no start time, no end time, no channel selected),
    and closing twice leaves the same fields and the same page as closing
    once. *)
Theorem close_resets_and_is_idempotent (w : World) (d : Dom) :
  selectionState (close w) = (None, None, JsSet.empty)
  /\ selectionState (close w) = selectionState (fresh d)
  /\ close (close w) = close w.
Proof.
  split; [reflexivity | split; [reflexivity | ]].
  destruct w as [this [f startInput endInput dropdown static container height]
                   actions].
  cbv [close onDom onWidget toggleAllChannelCheckboxes_
       set_startTimeInput set_endTimeInput set_staticLabels
       set_containerLabels set_form set_hidden set_startTime_ set_endTime_
       set_selectedChannels_ JsSet.clear widget dom sent form startTimeInput
       endTimeInput typeDropdown staticLabels containerLabels innerHeight
       hidden renderedWidth renderedHeight styleLeft styleTop startTime_
       endTime_ selectedChannels_ allChannels_].
  rewrite !map_toggle_idem. reflexivity.
Qed.

(** C8. [toggleAllChannels] with the box checked adds every name of
    [allChannels_] to the selection (and removes none); with the box
    unchecked it empties the selection; checking and then unchecking
    always ends with the empty selection. *)
Theorem toggleAllChannels_selects_all_or_none (w : World) :
  (forall c, In c (allChannels_ (widget w)) ->
     JsSet.has (selectedChannels_ (widget (toggleAllChannels true w))) c
     = true)
  /\ (forall c,
        In c (selectedChannels_ (widget (toggleAllChannels true w)))
        <-> In c (selectedChannels_ (widget w))
            \/ In c (allChannels_ (widget w)))
  /\ selectedChannels_ (widget (toggleAllChannels false w)) = JsSet.empty
  /\ selectedChannels_
       (widget (toggleAllChannels false (toggleAllChannels true w)))
     = JsSet.empty.
Proof.
  repeat split; try reflexivity.
  - intros c Hc. apply JsSet_has_In. simpl.
    apply JsSet_fold_add_In. now right.
  - simpl. intros H. now apply JsSet_fold_add_In.
  - simpl. intros H. now apply JsSet_fold_add_In.
Qed.

(** C10. With both [channelIds] and [indexChannelMap] present,
    [handleChannelNames] replaces [allChannels_] and leaves the selection
    and both times alone. So a name selected before the update stays
    selected, whether or not the new list has it, and is in the channel
    list of a [save] that follows. *)
Theorem handleChannelNames_keeps_selection
    (store : StoreData) (ids : list string) (indexMap : IndexChannelMap)
    (w : World) :
  channelIds store = Some ids ->
  indexChannelMap store = Some indexMap ->
  let w' := handleChannelNames store w in
  allChannels_ (widget w') = channelIndexesToNames ids indexMap
  /\ selectedChannels_ (widget w') = selectedChannels_ (widget w)
  /\ startTime_ (widget w') = startTime_ (widget w)
  /\ endTime_ (widget w') = endTime_ (widget w)
  /\ (forall c, JsSet.has (selectedChannels_ (widget w)) c = true ->
        JsSet.has (selectedChannels_ (widget w')) c = true)
  /\ (forall s, reachable w -> startTime_ (widget w) = Some s ->
        exists a,
          sent (save w') = sent w ++ [a]
          /\ actionType a = ADD_WAVE_EVENT
          /\ channelList (data a)
             = JsSet.toArray (selectedChannels_ (widget w))
          /\ forall c, JsSet.has (selectedChannels_ (widget w)) c = true ->
                       In c (channelList (data a))).
Proof.
  intros Hids Hmap w'.
  assert (Hw' : widget w'
                = set_allChannels_ (channelIndexesToNames ids indexMap)
                    (widget w)).
  { subst w'. unfold handleChannelNames. rewrite Hids, Hmap. reflexivity. }
  assert (Hsent : sent w' = sent w).
  { subst w'. unfold handleChannelNames. rewrite Hids, Hmap. reflexivity. }
  rewrite Hw'. simpl.
  do 4 (split; [reflexivity | ]).
  split; [intros c Hc; exact Hc | ].
  intros s Hr Hs.
  exists (waveEventAction (typeDropdown (dom w')) s
            (match endTime_ (widget w) with Some e => e | None => s end)
            (selectedChannels_ (widget w))).
  split.
  { rewrite save_unfold, Hw'. simpl. rewrite Hs. cbv zeta.
    rewrite (reachable_guard w s Hr Hs).
    rewrite close_sent. simpl. now rewrite Hsent. }
  do 2 (split; [reflexivity | ]).
  intros c Hc. simpl. unfold JsSet.toArray. now apply JsSet_has_In.
Qed.

End Properties.

(** ** Positioning the form *)

Lemma formWidthOf_orDefault (d : Dom) :
  orDefault (offsetWidth (form d)) defaultFormWidth = formWidthOf d.
Proof. reflexivity. Qed.

Lemma formHeightOf_orDefault (d : Dom) :
  orDefault (offsetHeight (form d)) defaultFormHeight = formHeightOf d.
Proof. reflexivity. Qed.

(** The two coordinates [setWaveEventFormPosition_] writes, branch by
    branch. *)
Lemma setWaveEventFormPosition_style (xPos yPos : Z) (d : Dom) :
  let d' := setWaveEventFormPosition_ xPos yPos d in
  styleLeft (form d')
  = Some (if movedRight xPos d then xPos + 10
          else xPos - formWidthOf d - 20)
  /\ styleTop (form d')
     = Some (if computedTop xPos yPos d
                >? innerHeight d - formHeightOf d - 100
             then yPos - formHeightOf d
                  - (if movedRight xPos d then 200 else 20)
             else computedTop xPos yPos d).
Proof.
  unfold setWaveEventFormPosition_, computedTop, movedRight.
  rewrite formWidthOf_orDefault, formHeightOf_orDefault.
  destruct (xPos - formWidthOf d - 20 <? 0); simpl;
    (split; [reflexivity | ]);
    match goal with |- context [?a >? ?b] => destruct (a >? b) end;
    reflexivity.
Qed.

(** C5. With the form's width and height falling back to 330 and 487 when
    the measured size is zero, the form goes to the left of the click, at
    [xPos - width - 20], with its top at [yPos]; when that would be left of
    the viewport it goes to [xPos + 10] with its top at [yPos + 80]. That top
    stands whenever it does not exceed [innerHeight - height - 100]. For the
    click (50, 100), a form of 330 by 487 and a window 800 high, the form is
    put at (60, 180). *)
Theorem form_position_left_or_right_of_click (xPos yPos : Z) (d : Dom) :
  let width :=
    if offsetWidth (form d) =? 0 then 330 else offsetWidth (form d) in
  let height :=
    if offsetHeight (form d) =? 0 then 487 else offsetHeight (form d) in
  let d' := setWaveEventFormPosition_ xPos yPos d in
  (0 <= xPos - width - 20 ->
     styleLeft (form d') = Some (xPos - width - 20)
     /\ (yPos <= innerHeight d - height - 100 ->
         styleTop (form d') = Some yPos))
  /\ (xPos - width - 20 < 0 ->
      styleLeft (form d') = Some (xPos + 10)
      /\ (yPos + 80 <= innerHeight d - height - 100 ->
          styleTop (form d') = Some (yPos + 80)))
  /\ (xPos = 50 -> yPos = 100 -> width = 330 -> height = 487 ->
      innerHeight d = 800 ->
      styleLeft (form d') = Some 60 /\ styleTop (form d') = Some 180).
Proof.
  intros width height d'.
  destruct (setWaveEventFormPosition_style xPos yPos d) as [Hleft Htop].
  fold d' in Hleft, Htop.
  unfold computedTop, movedRight in Hleft, Htop.
  change (formWidthOf d) with width in Hleft, Htop.
  change (formHeightOf d) with height in Htop.
  rewrite Hleft, Htop. clear Hleft Htop.
  split; [ | split].
  - intros Hleft. split.
    + destruct (xPos - width - 20 <? 0) eqn:E; [ | reflexivity].
      apply Z.ltb_lt in E. lia.
    + intros Hfit. destruct (xPos - width - 20 <? 0) eqn:E.
      * apply Z.ltb_lt in E. lia.
      * destruct (yPos >? innerHeight d - height - 100) eqn:G;
          [ | reflexivity].
        apply Z.gtb_lt in G. lia.
  - intros Hright. split.
    + destruct (xPos - width - 20 <? 0) eqn:E; [reflexivity | ].
      apply Z.ltb_ge in E. lia.
    + intros Hfit. destruct (xPos - width - 20 <? 0) eqn:E.
      * destruct (yPos + 80 >? innerHeight d - height - 100) eqn:G;
          [ | reflexivity].
        apply Z.gtb_lt in G. lia.
      * apply Z.ltb_ge in E. lia.
  - intros -> -> Hw Hh HH. rewrite Hw, Hh, HH. split; reflexivity.
Qed.

(** C6, as the code has it. Whenever the computed top exceeds
    [innerHeight - height - 100], the final top is the click's [yPos] moved
    up by [height + 200] when the form was moved to the right of the click
    and by [height + 20] otherwise. Counted from the computed top, that is
    [height + 20] when the form stayed left of the click, and [height + 280]
    when it was moved right (its computed top was [yPos + 80]). *)
Theorem overflow_moves_form_above_click (xPos yPos : Z) (d : Dom) :
  computedTop xPos yPos d > innerHeight d - formHeightOf d - 100 ->
  let top' := styleTop (form (setWaveEventFormPosition_ xPos yPos d)) in
  top' = Some (yPos - (formHeightOf d
                       + (if movedRight xPos d then 200 else 20)))
  /\ (movedRight xPos d = false ->
      top' = Some (computedTop xPos yPos d - (formHeightOf d + 20)))
  /\ (movedRight xPos d = true ->
      top' = Some (computedTop xPos yPos d - (formHeightOf d + 280))).
Proof.
  intros Hover top'.
  destruct (setWaveEventFormPosition_style xPos yPos d) as [_ Htop].
  subst top'. rewrite Htop. clear Htop.
  apply Z.gt_lt, Z.gtb_lt in Hover. rewrite Hover.
  unfold computedTop. repeat split.
  - f_equal. lia.
  - intros ->. f_equal. lia.
  - intros ->. f_equal. lia.
Qed.

(** * The contract on the sample page *)

Lemma afterFirstClick_reachable :
  @reachable sampleFormatter sampleMontages sampleEngine afterFirstClick.
Proof.
  exists samplePage, firstClickCalls. reflexivity.
Defined.

Lemma afterSecondClick_reachable :
  @reachable sampleFormatter sampleMontages sampleEngine afterSecondClick.
Proof.
  exists samplePage, secondClickCalls. reflexivity.
Defined.



Lemma second_click_after_first :
  exists s, startTime_ (widget afterSecondClick) = Some s /\ s < 25.
Proof.
  exact (@endTime_strictly_after_startTime sampleFormatter sampleMontages
              sampleEngine
           afterSecondClick 25 afterSecondClick_reachable eq_refl).
Defined.

(** A second click at time 7, before the start time 10, on the channel of
    the first click: no end time, and the channel is taken out again. *)
Lemma early_second_click_unselects :
  startTime_
    (widget (@handleGraphPointClick sampleFormatter sampleEngine
               (clickAt 7 "Fp1" 60 120) afterFirstClick))
  = Some 10
  /\ endTime_
       (widget (@handleGraphPointClick sampleFormatter sampleEngine
                  (clickAt 7 "Fp1" 60 120) afterFirstClick))
     = None
  /\ selectedChannels_
       (widget (@handleGraphPointClick sampleFormatter sampleEngine
                  (clickAt 7 "Fp1" 60 120) afterFirstClick))
     = [].
Proof.
  destruct (@click_after_start_toggles_channel sampleFormatter sampleEngine
              (clickAt 7 "Fp1" 60 120)
              {| timeValue := 7; channelName := "Fp1";
                 xPos := 60; yPos := 120 |}
              afterFirstClick 10 eq_refl
              (@plain_lookupRuns sampleEngine "Fp1" (dom afterFirstClick)
                 eq_refl)
              eq_refl
              (or_intror (Zle_bool_imp_le 7 10 eq_refl)))
    as (Hs & He & Hsel & _).
  split; [exact Hs | split; [exact He | exact Hsel]].
Defined.

(** C3 fails as stated: the start time is 10, and a click at time 7 on a
    channel named a, double quote, b makes a selector that does not parse;
    the lookup throws and the channel, which was not selected, is not
    selected afterwards either. *)
Lemma click_on_quoted_name_toggles_nothing :
  ~ @everyLateClickToggles sampleFormatter sampleEngine.
Proof.
  intros H.
  specialize (H (clickAt 7 quotedName 60 120)
                {| timeValue := 7; channelName := quotedName;
                   xPos := 60; yPos := 120 |}
                afterFirstClick 10 eq_refl eq_refl
                (or_intror (Zle_bool_imp_le 7 10 eq_refl))).
  vm_compute in H. discriminate H.
Qed.

Lemma save_on_fresh_widget :
  save (fresh samplePage) = fresh samplePage
  /\ sent (save (fresh samplePage)) = [].
Proof.
  destruct (save_without_start_is_noop (fresh samplePage) eq_refl)
    as (Hsame & Hsent & _).
  split; [exact Hsame | exact Hsent].
Defined.

Lemma save_guard_on_samples :
  save invertedInterval = invertedInterval
  /\ 10 <= 25
  /\ sent (save afterSecondClick)
     = [{| actionType := ADD_WAVE_EVENT;
           data := {| labelText := "SZ";
                      startTime := 10;
                      duration := 15;
                      channelList := ["Fp1"; "Cz"] |} |}].
Proof.
  split.
  - exact (proj1 (proj1 (@save_guard_is_never_taken sampleFormatter
                           sampleMontages sampleEngine invertedInterval 5
                           eq_refl)
                    3 eq_refl eq_refl)).
  - exact (proj2 (@save_guard_is_never_taken sampleFormatter sampleMontages
              sampleEngine
                    afterSecondClick 10 eq_refl)
             afterSecondClick_reachable).
Defined.

(** The click (50, 100) on the sample page: the form, still hidden, counts
    as 330 by 487 and lands at (60, 180). *)
Lemma form_position_on_sample_page :
  styleLeft (form (setWaveEventFormPosition_ 50 100 samplePage)) = Some 60
  /\ styleTop (form (setWaveEventFormPosition_ 50 100 samplePage)) = Some 180.
Proof.
  exact (proj2 (proj2 (form_position_left_or_right_of_click 50 100 samplePage))
           eq_refl eq_refl eq_refl eq_refl eq_refl).
Defined.

(** The click (50, 300) on the sample page: the form is moved right, to a
    top of 380, which is below the limit 213; it ends 687 above the click, at
    -387. *)
Lemma overflow_on_sample_page :
  styleTop (form (setWaveEventFormPosition_ 50 300 samplePage))
  = Some (-387).
Proof.
  exact (proj1 (overflow_moves_form_above_click 50 300 samplePage eq_refl)).
Defined.

(** C6 fails as stated: at the click (50, 300) on the sample page the form
    is moved right (computed top 380) and overflows (limit 213); shifting the
    computed top by [height + 200] would give -307, and the code writes
    -387. *)
Lemma overflow_shift_is_from_click_not_computed_top :
  ~ overflowShiftsComputedTop 50 300 samplePage.
Proof.
  unfold overflowShiftsComputedTop. intros H.
  specialize (H eq_refl). vm_compute in H. discriminate H.
Qed.

(** Checking "All" on a widget that knows C3 and C4 and has Fp1 selected,
    then unchecking it. *)
Lemma toggle_all_on_sample :
  selectedChannels_
    (widget (toggleAllChannels true
               (@handleChannelNames sampleMontages
                  (channelsUpdate ["0"; "1"] [("0", "C3"); ("1", "C4")])
                  afterFirstClick)))
  = ["Fp1"; "C3"; "C4"]
  /\ selectedChannels_
       (widget (toggleAllChannels false
                  (toggleAllChannels true
                     (@handleChannelNames sampleMontages
                        (channelsUpdate ["0"; "1"] [("0", "C3"); ("1", "C4")])
                        afterFirstClick))))
     = [].
Proof.
  split.
  - reflexivity.
  - exact (proj2 (proj2 (proj2
             (toggleAllChannels_selects_all_or_none
                (@handleChannelNames sampleMontages
                   (channelsUpdate ["0"; "1"] [("0", "C3"); ("1", "C4")])
                   afterFirstClick))))).
Defined.

(** Fp1 is selected, then the channels become C3 and C4: Fp1 stays selected
    and is the channel list of the [save] that follows. *)
Lemma selection_survives_channel_update :
  allChannels_
    (widget (@handleChannelNames sampleMontages
               (channelsUpdate ["0"; "1"] [("0", "C3"); ("1", "C4")])
               afterFirstClick))
  = ["C3"; "C4"]
  /\ selectedChannels_
       (widget (@handleChannelNames sampleMontages
                  (channelsUpdate ["0"; "1"] [("0", "C3"); ("1", "C4")])
                  afterFirstClick))
     = ["Fp1"]
  /\ exists a,
       sent (save (@handleChannelNames sampleMontages
                     (channelsUpdate ["0"; "1"] [("0", "C3"); ("1", "C4")])
                     afterFirstClick))
       = [a]
       /\ channelList (data a) = ["Fp1"].
Proof.
  destruct (@handleChannelNames_keeps_selection sampleFormatter sampleMontages
              sampleEngine
              (channelsUpdate ["0"; "1"] [("0", "C3"); ("1", "C4")])
              ["0"; "1"] [("0", "C3"); ("1", "C4")]
              afterFirstClick eq_refl eq_refl)
    as (Hall & Hsel & _ & _ & _ & Hsave).
  split; [exact Hall | split; [exact Hsel | ]].
  destruct (Hsave 10 afterFirstClick_reachable eq_refl)
    as (a & Hsent & _ & Hlist & _).
  exists a. split; [exact Hsent | exact Hlist].
Defined.

(** * Further properties of the methods *)

(** ** Labels and their boxes *)

Lemma nth_error_toggleNth_same (i : nat) (v : bool) (ls : list Checkbox) :
  nth_error (toggleNth i v ls) i
  = option_map (fun l => toggleMDLCheckbox l v) (nth_error ls i).
Proof.
  revert i. induction ls as [ | c ls IH]; intros [ | i]; simpl;
    try reflexivity.
  apply IH.
Qed.

Lemma nth_error_toggleNth_other (i j : nat) (v : bool)
    (ls : list Checkbox) :
  j <> i -> nth_error (toggleNth i v ls) j = nth_error ls j.
Proof.
  revert i j. induction ls as [ | c ls IH]; intros [ | i] [ | j] Hneq; simpl;
    try reflexivity.
  - congruence.
  - apply IH. congruence.
Qed.

Lemma length_toggleNth (i : nat) (v : bool) (ls : list Checkbox) :
  List.length (toggleNth i v ls) = List.length ls.
Proof.
  revert i. induction ls as [ | c ls IH]; intros [ | i]; simpl;
    try reflexivity.
  now rewrite IH.
Qed.

(** Toggling the element at place [i] changes the label at place [i] of
    [channelLabels], if there is one, and no other. *)
Lemma channelLabels_toggleElement_same (i : nat) (v : bool) (d : Dom) :
  nth_error (channelLabels (toggleElement (Some i) v d)) i
  = option_map (fun l => toggleMDLCheckbox l v)
      (nth_error (channelLabels d) i).
Proof.
  unfold channelLabels, toggleElement.
  destruct (i <? List.length (staticLabels d))%nat eqn:Hi;
    cbn [staticLabels containerLabels set_staticLabels set_containerLabels].
  - apply Nat.ltb_lt in Hi.
    rewrite !nth_error_app1;
      [apply nth_error_toggleNth_same | assumption | ].
    now rewrite length_toggleNth.
  - apply Nat.ltb_ge in Hi.
    rewrite !nth_error_app2 by assumption.
    apply nth_error_toggleNth_same.
Qed.

Lemma channelLabels_toggleElement_other (i j : nat) (v : bool) (d : Dom) :
  j <> i ->
  nth_error (channelLabels (toggleElement (Some i) v d)) j
  = nth_error (channelLabels d) j.
Proof.
  intros Hneq. unfold channelLabels, toggleElement.
  destruct (i <? List.length (staticLabels d))%nat eqn:Hi;
    cbn [staticLabels containerLabels set_staticLabels set_containerLabels].
  - destruct (Nat.lt_ge_cases j (List.length (staticLabels d))) as [Hj | Hj].
    + rewrite !nth_error_app1;
        [now apply nth_error_toggleNth_other | assumption | ].
      now rewrite length_toggleNth.
    + rewrite !nth_error_app2;
        [now rewrite length_toggleNth | assumption | ].
      now rewrite length_toggleNth.
  - apply Nat.ltb_ge in Hi.
    destruct (Nat.lt_ge_cases j (List.length (staticLabels d))) as [Hj | Hj].
    + now rewrite !nth_error_app1.
    + rewrite !nth_error_app2 by assumption.
      apply nth_error_toggleNth_other. lia.
Qed.

(** The place [indexOfLabel] gives holds a label for [id], and no label
    before it is for [id]; without a place no label is for [id]. *)
Lemma indexOfLabel_first (id : string) (ls : list Checkbox) :
  match indexOfLabel id ls with
  | Some i =>
      (exists l, nth_error ls i = Some l /\ forId l = id)
      /\ forall j l, (j < i)%nat -> nth_error ls j = Some l -> forId l <> id
  | None => forall l, In l ls -> forId l <> id
  end.
Proof.
  induction ls as [ | c ls IH]; simpl.
  - intros l [].
  - destruct (String.eqb (forId c) id) eqn:E.
    + apply String.eqb_eq in E. split.
      * exists c. now split.
      * intros j l Hj. lia.
    + apply String.eqb_neq in E.
      destruct (indexOfLabel id ls) as [i | ]; simpl.
      * destruct IH as [(l & Hl & Hid) Hfirst]. split.
        -- exists l. now split.
        -- intros [ | j] l' Hj Hl'; simpl in Hl'.
           ++ injection Hl' as <-. exact E.
           ++ apply (Hfirst j l'); [lia | assumption].
      * intros l [<- | Hl]; [exact E | now apply IH].
Qed.

(** [toggleElement] writes labels only. *)
Lemma toggleElement_frame (element : option nat) (v : bool) (d : Dom) :
  form (toggleElement element v d) = form d
  /\ startTimeInput (toggleElement element v d) = startTimeInput d
  /\ endTimeInput (toggleElement element v d) = endTimeInput d
  /\ typeDropdown (toggleElement element v d) = typeDropdown d
  /\ innerHeight (toggleElement element v d) = innerHeight d.
Proof.
  unfold toggleElement. destruct element as [i | ]; [ | repeat split].
  destruct (i <? List.length (staticLabels d))%nat; repeat split.
Qed.

(** [setWaveEventFormPosition_] writes the two style coordinates of the
    form and nothing else. *)
Lemma setWaveEventFormPosition_frame (xPos yPos : Z) (d : Dom) :
  exists l t,
    setWaveEventFormPosition_ xPos yPos d
    = set_form (set_style l t (form d)) d.
Proof.
  unfold setWaveEventFormPosition_.
  destruct (_ <? 0); do 2 eexists; reflexivity.
Qed.

Section ClickProperties.

Context {formatter : Formatter} {engine : SelectorEngine}.

(** Every branch of the click handler ends by toggling the element the
    lookup returned to the channel's new membership, on a page with the
    labels it had. *)
Lemma handleGraphPointClick_shape
    (store : StoreData) (click : GraphPointClick) (w : World)
    (element : option nat) :
  graphPointClick store = Some click ->
  queryLabelFor (getChannelCheckboxId_ (channelName click)) (dom w)
  = QueryFinds element ->
  let c := channelName click in
  let w' := handleGraphPointClick store w in
  exists (v : bool) (d0 : Dom),
    dom w' = toggleElement element v d0
    /\ channelLabels d0 = channelLabels (dom w)
    /\ selectedChannels_ (widget w')
       = (if v then JsSet.add (selectedChannels_ (widget w)) c
          else JsSet.delete (selectedChannels_ (widget w)) c)
    /\ JsSet.has (selectedChannels_ (widget w')) c = v.
Proof.
  intros Hclick Hquery c w'. subst w'. unfold handleGraphPointClick.
  rewrite Hclick, Hquery. fold c.
  assert (Hadd : forall s, JsSet.has (JsSet.add s c) c = true).
  { intros s. rewrite JsSet_has_add, String.eqb_refl. apply orb_true_r. }
  assert (Hdel : forall s, JsSet.has (JsSet.delete s c) c = false).
  { intros s. rewrite JsSet_has_delete, String.eqb_refl. apply andb_false_r. }
  destruct (isNull (startTime_ (widget w))).
  - destruct (setWaveEventFormPosition_frame (xPos click) (yPos click)
                (set_endTimeInput ""
                   (set_startTimeInput
                      (formatTime (jsAdd (absStart store) (timeValue click))
                         true)
                      (dom w))))
      as (l & t & Hpos).
    exists true. eexists. split; [reflexivity | ].
    cbn [dom onDom onWidget]. rewrite Hpos.
    do 2 (split; [reflexivity | ]). apply Hadd.
  - destruct (negb false && isNull (endTime_ (widget w)) && _).
    + exists true. eexists. split; [reflexivity | ].
      do 2 (split; [reflexivity | ]). apply Hadd.
    + destruct (JsSet.has (selectedChannels_ (widget w)) c).
      * exists false. eexists. split; [reflexivity | ].
        do 2 (split; [reflexivity | ]). apply Hdel.
      * exists true. eexists. split; [reflexivity | ].
        do 2 (split; [reflexivity | ]). apply Hadd.
Qed.

(** X3. A click whose label lookup throws changes nothing. Otherwise the
    label the lookup returned shows, after the click, whether the channel
    is now selected, and every other label is as it was. For a channel name
    without a double quote, a backslash, a line break or a NUL, the label
    returned is the first label whose [for] attribute is the checkbox id of
    the channel. *)
Theorem click_checkbox_shows_membership
    (store : StoreData) (click : GraphPointClick) (w : World) :
  graphPointClick store = Some click ->
  let id := getChannelCheckboxId_ (channelName click) in
  let w' := handleGraphPointClick store w in
  (queryLabelFor id (dom w) = QueryThrows -> w' = w)
  /\ (forall element, queryLabelFor id (dom w) = QueryFinds element ->
        (forall l, labelOf element (dom w) = Some l ->
           labelOf element (dom w')
           = Some {| forId := forId l;
                     checked := JsSet.has (selectedChannels_ (widget w'))
                                  (channelName click) |})
        /\ (forall j, element <> Some j ->
              nth_error (channelLabels (dom w')) j
              = nth_error (channelLabels (dom w)) j))
  /\ (cssPlain (channelName click) = true ->
      exists element,
        queryLabelFor id (dom w) = QueryFinds element
        /\ (forall l, labelOf element (dom w) = Some l -> forId l = id)
        /\ (forall i j l, element = Some i -> (j < i)%nat ->
              nth_error (channelLabels (dom w)) j = Some l -> forId l <> id)
        /\ (element = None ->
            forall l, In l (channelLabels (dom w)) -> forId l <> id)).
Proof.
  intros Hclick id w'. split; [ | split].
  - intros Hquery. subst w' id. unfold handleGraphPointClick.
    now rewrite Hclick, Hquery.
  - intros element Hquery.
    destruct (handleGraphPointClick_shape store click w element Hclick Hquery)
      as (v & d0 & Hdom & Hlabels & _ & Hhas).
    fold w' in Hdom, Hhas. rewrite Hdom, Hhas. split.
    + intros l Hl. destruct element as [i | ]; [ | discriminate].
      cbn [labelOf] in *.
      rewrite channelLabels_toggleElement_same, Hlabels, Hl. reflexivity.
    + intros j Hneq. destruct element as [i | ].
      * rewrite channelLabels_toggleElement_other, Hlabels;
          [reflexivity | congruence].
      * cbn [toggleElement]. now rewrite Hlabels.
  - intros Hplain.
    assert (Hid : cssPlain id = true).
    { subst id. unfold getChannelCheckboxId_. simpl. exact Hplain. }
    exists (indexOfLabel id (channelLabels (dom w))).
    split; [now apply queryLabelFor_plain | ].
    pose proof (indexOfLabel_first id (channelLabels (dom w))) as Hfirst.
    destruct (indexOfLabel id (channelLabels (dom w))) as [i | ].
    + destruct Hfirst as [(l & Hl & Hfor) Hbefore].
      split; [ | split].
      * intros l' Hl'. cbn [labelOf] in Hl'. congruence.
      * intros i' j l' Hi'. injection Hi' as <-. apply Hbefore.
      * discriminate.
    + split; [ | split].
      * intros l' Hl'. discriminate.
      * intros i' j l' Hi'. discriminate.
      * intros _. exact Hfirst.
Qed.

End ClickProperties.

(** ** The two clicks that make an event *)

(** The position depends on the form and the window only. *)
Lemma setWaveEventFormPosition_form (xPos yPos : Z) (d1 d2 : Dom) :
  form d1 = form d2 ->
  innerHeight d1 = innerHeight d2 ->
  form (setWaveEventFormPosition_ xPos yPos d1)
  = form (setWaveEventFormPosition_ xPos yPos d2).
Proof.
  intros Hf Hh. unfold setWaveEventFormPosition_. rewrite Hf, Hh.
  destruct (_ <? 0); reflexivity.
Qed.

Section TwoClicks.

Context {formatter : Formatter} {montages : Montages}
        {engine : SelectorEngine}.

(** X1. The first click (no start time yet) whose label lookup does not
    throw records its time as the start time and adds its channel to the
    selection; it writes the formatted time into the start input, empties
    the end input, positions the form from its size before it is shown and
    shows it. The end time, the channel names, the type dropdown and the
    actions sent are untouched. *)
Theorem first_click_starts_event
    (store : StoreData) (click : GraphPointClick) (w : World) :
  graphPointClick store = Some click ->
  lookupRuns (channelName click) (dom w) ->
  startTime_ (widget w) = None ->
  let w' := handleGraphPointClick store w in
  let positioned :=
    form (setWaveEventFormPosition_ (xPos click) (yPos click) (dom w)) in
  startTime_ (widget w') = Some (timeValue click)
  /\ endTime_ (widget w') = endTime_ (widget w)
  /\ selectedChannels_ (widget w')
     = JsSet.add (selectedChannels_ (widget w)) (channelName click)
  /\ allChannels_ (widget w') = allChannels_ (widget w)
  /\ startTimeInput (dom w')
     = formatTime (jsAdd (absStart store) (timeValue click)) true
  /\ endTimeInput (dom w') = ""
  /\ form (dom w') = set_hidden false positioned
  /\ typeDropdown (dom w') = typeDropdown (dom w)
  /\ sent w' = sent w.
Proof.
  intros Hclick Hrun Hstart w' positioned.
  set (pretty := formatTime (jsAdd (absStart store) (timeValue click)) true).
  set (typed := set_endTimeInput "" (set_startTimeInput pretty (dom w))).
  set (placed :=
         setWaveEventFormPosition_ (xPos click) (yPos click) typed).
  destruct (queryLabelFor (getChannelCheckboxId_ (channelName click)) (dom w))
    as [ | element] eqn:Hquery; [exfalso; exact (Hrun Hquery) | ].
  assert (Hw' : w' = markChannelSelected (channelName click) element
                       (onWidget (set_startTime_ (Some (timeValue click)))
                          {| widget := widget w;
                             dom := set_form (set_hidden false (form placed))
                                      placed;
                             sent := sent w |})).
  { subst w'. unfold handleGraphPointClick.
    rewrite Hclick, Hquery, Hstart. reflexivity. }
  destruct (setWaveEventFormPosition_frame (xPos click) (yPos click) typed)
    as (l & t & Hplaced).
  fold placed in Hplaced.
  assert (Hform : form placed = positioned).
  { apply setWaveEventFormPosition_form; reflexivity. }
  destruct (toggleElement_frame element true
              (set_form (set_hidden false (form placed)) placed))
    as (Hf & Hsi & Hei & Htd & _).
  rewrite Hw'. cbn [widget dom sent markChannelSelected onWidget onDom].
  rewrite Hf, Hsi, Hei, Htd.
  do 4 (split; [reflexivity | ]).
  split; [rewrite Hplaced; reflexivity | ].
  split; [rewrite Hplaced; reflexivity | ].
  split; [cbn [form set_form]; now rewrite Hform | ].
  split; [rewrite Hplaced; reflexivity | reflexivity].
Qed.

(** X2. The second click (start time set, no end time, and a time after
    the start) whose label lookup does not throw records its time as the
    end time and adds its channel to the selection, keeping the channels
    already selected; it writes the formatted time into the end input. The
    start time, the start input, the form and the actions sent are
    untouched. *)
Theorem second_click_ends_event
    (store : StoreData) (click : GraphPointClick) (w : World) (s : Z) :
  graphPointClick store = Some click ->
  lookupRuns (channelName click) (dom w) ->
  startTime_ (widget w) = Some s ->
  endTime_ (widget w) = None ->
  s < timeValue click ->
  let w' := handleGraphPointClick store w in
  startTime_ (widget w') = Some s
  /\ endTime_ (widget w') = Some (timeValue click)
  /\ selectedChannels_ (widget w')
     = JsSet.add (selectedChannels_ (widget w)) (channelName click)
  /\ (forall c, JsSet.has (selectedChannels_ (widget w)) c = true ->
                JsSet.has (selectedChannels_ (widget w')) c = true)
  /\ endTimeInput (dom w')
     = formatTime (jsAdd (absStart store) (timeValue click)) true
  /\ startTimeInput (dom w') = startTimeInput (dom w)
  /\ form (dom w') = form (dom w)
  /\ sent w' = sent w.
Proof.
  intros Hclick Hrun Hstart Hend Hlt w'.
  set (pretty := formatTime (jsAdd (absStart store) (timeValue click)) true).
  destruct (queryLabelFor (getChannelCheckboxId_ (channelName click)) (dom w))
    as [ | element] eqn:Hquery; [exfalso; exact (Hrun Hquery) | ].
  assert (Hw' : w' = markChannelSelected (channelName click) element
                       (onWidget (set_endTime_ (Some (timeValue click)))
                          (onDom (set_endTimeInput pretty) w))).
  { subst w'. unfold handleGraphPointClick.
    rewrite Hclick, Hquery, Hstart, Hend. cbn [isNull negb andb toNumber].
    assert (Hgt : (timeValue click >? s) = true)
      by (apply Z.gtb_lt; lia).
    rewrite Hgt. reflexivity. }
  destruct (toggleElement_frame element true
              (set_endTimeInput pretty (dom w)))
    as (Hf & Hsi & Hei & _).
  rewrite Hw'. cbn [widget dom sent markChannelSelected onWidget onDom].
  rewrite Hf, Hsi, Hei.
  split; [exact Hstart | ].
  do 2 (split; [reflexivity | ]).
  split.
  { intros c Hc. cbn [selectedChannels_ set_selectedChannels_ set_endTime_].
    rewrite JsSet_has_add, Hc. reflexivity. }
  repeat split.
Qed.

(** X4. A click never overwrites a time that is already recorded: a start
    time that is set, and an end time that is set, are the same after any
    click. *)
Theorem click_keeps_recorded_times (store : StoreData) (w : World) :
  (forall s, startTime_ (widget w) = Some s ->
             startTime_ (widget (handleGraphPointClick store w)) = Some s)
  /\ (forall e, endTime_ (widget w) = Some e ->
                endTime_ (widget (handleGraphPointClick store w)) = Some e).
Proof.
  unfold handleGraphPointClick.
  destruct (graphPointClick store) as [click | ]; [ | split; auto].
  destruct (queryLabelFor _ _) as [ | element]; [split; auto | ].
  split.
  - intros s Hs. rewrite Hs. cbn [isNull negb andb].
    destruct (isNull (endTime_ (widget w)) && _); [exact Hs | ].
    destruct (JsSet.has _ _); exact Hs.
  - intros e He. rewrite He. cbn [isNull andb].
    destruct (isNull (startTime_ (widget w))); [exact He | ].
    cbn [negb andb]. destruct (JsSet.has _ _); exact He.
Qed.

End TwoClicks.

(** ** What is sent, and when *)

Lemma toggleElement_typeDropdown (element : option nat) (v : bool)
    (d : Dom) :
  typeDropdown (toggleElement element v d) = typeDropdown d.
Proof.
  apply (toggleElement_frame element v d).
Qed.

(** [save] either leaves the world as it is or sends one well-formed action
    and closes. *)
Lemma save_cases (w : World) :
  save w = w
  \/ exists s e,
       startTime_ (widget w) = Some s
       /\ s <= e
       /\ save w
          = close (sendAction
                     (waveEventAction (typeDropdown (dom w)) s e
                        (selectedChannels_ (widget w))) w).
Proof.
  rewrite save_unfold. destruct (startTime_ (widget w)) as [s | ].
  - cbv zeta.
    destruct (match endTime_ (widget w) with Some e => e | None => s end <? s)
      eqn:Hguard.
    + now left.
    + right. apply Z.ltb_ge in Hguard. eauto.
  - now left.
Qed.

Section Sending.

Context {formatter : Formatter} {montages : Montages}
        {engine : SelectorEngine}.

Lemma handleGraphPointClick_sent (store : StoreData) (w : World) :
  sent (handleGraphPointClick store w) = sent w.
Proof.
  unfold handleGraphPointClick.
  destruct (graphPointClick store) as [click | ]; [ | reflexivity].
  destruct (queryLabelFor _ _) as [ | element]; [reflexivity | ].
  destruct (isNull (startTime_ (widget w))); [reflexivity | ].
  destruct (negb false && _ && _); [reflexivity | ].
  destruct (JsSet.has _ _); reflexivity.
Qed.

Lemma handleGraphPointClick_typeDropdown (store : StoreData) (w : World) :
  typeDropdown (dom (handleGraphPointClick store w)) = typeDropdown (dom w).
Proof.
  unfold handleGraphPointClick.
  destruct (graphPointClick store) as [click | ]; [ | reflexivity].
  destruct (queryLabelFor _ _) as [ | element]; [reflexivity | ].
  destruct (isNull (startTime_ (widget w))).
  - cbn [dom markChannelSelected onDom onWidget].
    rewrite toggleElement_typeDropdown.
    match goal with
    | |- context [setWaveEventFormPosition_ ?x ?y ?d] =>
        destruct (setWaveEventFormPosition_frame x y d) as (l & t & ->)
    end.
    reflexivity.
  - destruct (negb false && _ && _).
    + cbn [dom markChannelSelected onDom onWidget].
      now rewrite toggleElement_typeDropdown.
    + destruct (JsSet.has _ _);
        cbn [dom markChannelSelected markChannelUnselected onDom onWidget];
        now rewrite toggleElement_typeDropdown.
Qed.

Lemma handleChannelNames_sent (store : StoreData) (w : World) :
  sent (handleChannelNames store w) = sent w.
Proof.
  unfold handleChannelNames.
  destruct (channelIds store), (indexChannelMap store); reflexivity.
Qed.

(** A step that is not [save] sends nothing. *)
Lemma step_sent (w : World) (c : Call) :
  match c with
  | Save => True
  | _ => sent (step w c) = sent w
  end.
Proof.
  destruct c as [store | store | type | | | v | c v | d]; simpl; trivial.
  - apply handleGraphPointClick_sent.
  - apply handleChannelNames_sent.
  - destruct v; reflexivity.
  - destruct v; reflexivity.
Qed.

(** X5. Two clicks on channels with plain names (no double quote,
    backslash, line break or NUL), the second at a later time, and a
    [save], on
    a fresh widget: exactly one action, from the first click's time,
    lasting the difference of the two times as doubles subtract them (the
    exact difference below 2^53), on the channels of the two clicks, with
    the content of the type dropdown; and the widget is ready for the next
    event. *)
Theorem two_clicks_then_save
    (d : Dom) (store1 store2 : StoreData) (click1 click2 : GraphPointClick) :
  graphPointClick store1 = Some click1 ->
  graphPointClick store2 = Some click2 ->
  cssPlain (channelName click1) = true ->
  cssPlain (channelName click2) = true ->
  timeValue click1 < timeValue click2 ->
  let w :=
    run [GraphPointClicked store1; GraphPointClicked store2; Save]
      (fresh d) in
  sent w
  = [{| actionType := ADD_WAVE_EVENT;
        data := {| labelText := typeDropdown d;
                   startTime := timeValue click1;
                   duration := jsSub (timeValue click2) (timeValue click1);
                   channelList :=
                     if String.eqb (channelName click1) (channelName click2)
                     then [channelName click1]
                     else [channelName click1; channelName click2] |} |}]
  /\ (timeValue click2 - timeValue click1 < 2 ^ 53 ->
      jsSub (timeValue click2) (timeValue click1)
      = timeValue click2 - timeValue click1)
  /\ selectionState w = selectionState (fresh d).
Proof.
  intros H1 H2 Hplain1 Hplain2 Hlt w.
  set (w1 := handleGraphPointClick store1 (fresh d)).
  set (w2 := handleGraphPointClick store2 w1).
  assert (Hw : w = save w2) by reflexivity.
  pose proof (plain_lookupRuns (channelName click1) (dom (fresh d)) Hplain1)
    as Hrun1.
  pose proof (plain_lookupRuns (channelName click2) (dom w1) Hplain2)
    as Hrun2.
  unfold lookupRuns in Hrun1, Hrun2.
  assert (Hwidget1 : widget w1
                     = {| startTime_ := Some (timeValue click1);
                          endTime_ := None;
                          selectedChannels_ := [channelName click1];
                          allChannels_ := [] |}).
  { subst w1. unfold handleGraphPointClick. rewrite H1.
    destruct (queryLabelFor _ _) as [ | element]; [congruence | ].
    reflexivity. }
  assert (Hwidget2 : widget w2
                     = {| startTime_ := Some (timeValue click1);
                          endTime_ := Some (timeValue click2);
                          selectedChannels_ :=
                            JsSet.add [channelName click1]
                              (channelName click2);
                          allChannels_ := [] |}).
  { subst w2. unfold handleGraphPointClick. rewrite H2.
    destruct (queryLabelFor _ (dom w1)) as [ | element]; [congruence | ].
    rewrite Hwidget1.
    cbn [isNull negb andb toNumber startTime_ endTime_].
    assert (Hgt : (timeValue click2 >? timeValue click1) = true)
      by (apply Z.gtb_lt; lia).
    rewrite Hgt. cbn [widget markChannelSelected onWidget onDom].
    rewrite Hwidget1. reflexivity. }
  assert (Hdrop : typeDropdown (dom w2) = typeDropdown d).
  { subst w2 w1. now rewrite !handleGraphPointClick_typeDropdown. }
  assert (Hsent : sent w2 = []).
  { subst w2 w1. now rewrite !handleGraphPointClick_sent. }
  assert (Hsave : save w2
                  = close (sendAction
                             (waveEventAction (typeDropdown d)
                                (timeValue click1) (timeValue click2)
                                (JsSet.add [channelName click1]
                                   (channelName click2))) w2)).
  { rewrite save_unfold, Hwidget2, Hdrop.
    cbn [startTime_ endTime_ selectedChannels_].
    assert (Hge : (timeValue click2 <? timeValue click1) = false)
      by (apply Z.ltb_ge; lia).
    rewrite Hge. reflexivity. }
  rewrite Hw, Hsave. split; [ | split].
  - rewrite close_sent. cbn [sent sendAction]. rewrite Hsent.
    unfold waveEventAction, JsSet.add, JsSet.has, JsSet.toArray.
    cbn [existsb orb app].
    rewrite String.eqb_sym.
    destruct (String.eqb (channelName click1) (channelName click2));
      reflexivity.
  - intros Hsmall. apply jsSub_exact. lia.
  - reflexivity.
Qed.

(** X6. Saving twice sends once: a second [save] right after a [save]
    changes nothing, whatever the state. *)
Theorem save_twice_sends_once (w : World) :
  save (save w) = save w
  /\ sent (save (save w)) = sent (save w).
Proof.
  assert (H : save (save w) = save w).
  { destruct (save_cases w) as [Hsame | (s & e & _ & _ & Hsent)].
    - now rewrite !Hsame.
    - rewrite (save_unfold (save w)), Hsent. reflexivity. }
  now rewrite H.
Qed.

Lemma step_wellFormed (w : World) (c : Call) :
  NoDup (selectedChannels_ (widget w)) ->
  Forall wellFormedAction (sent w) ->
  Forall wellFormedAction (sent (step w c)).
Proof.
  intros Hsel Hsent. pose proof (step_sent w c) as Hstep.
  destruct c; try (rewrite Hstep; assumption).
  simpl. destruct (save_cases w) as [-> | (s & e & _ & Hle & ->)];
    [assumption | ].
  rewrite close_sent. cbn [sent sendAction].
  apply Forall_app. split; [assumption | ].
  constructor; [ | constructor].
  unfold wellFormedAction, waveEventAction, JsSet.toArray.
  cbn [actionType data duration channelList].
  repeat split; [now apply jsSub_nonneg | assumption].
Qed.

(** X7. Every action the widget ever sends is a wave event with a duration
    that is not negative and a channel list without repetition. *)
Theorem sent_actions_are_well_formed (w : World) :
  reachable w -> Forall wellFormedAction (sent w).
Proof.
  intros [d [calls ->]].
  assert (H : forall w0,
             NoDup (selectedChannels_ (widget w0)) ->
             Forall wellFormedAction (sent w0) ->
             Forall wellFormedAction (sent (run calls w0))).
  { induction calls as [ | c calls IH]; intros w0 Hsel Hsent; simpl.
    - assumption.
    - apply IH; [now apply step_NoDup | now apply step_wellFormed]. }
  apply H; constructor.
Qed.

(** X8. Only [save] sends: over any sequence of calls the log of sent
    actions is extended, never rewritten, and by at most one action for
    each [save] in the sequence. *)
Theorem only_save_sends (calls : list Call) (w : World) :
  exists new,
    sent (run calls w) = sent w ++ new
    /\ (List.length new <= countSaves calls)%nat.
Proof.
  revert w. induction calls as [ | c calls IH]; intros w.
  - exists []. split; [now rewrite app_nil_r | apply Nat.le_refl].
  - change (run (c :: calls) w) with (run calls (step w c)).
    destruct (IH (step w c)) as (new & Hrun & Hlen). rewrite Hrun.
    pose proof (step_sent w c) as Hstep.
    destruct c;
      try (exists new; rewrite Hstep; split; [reflexivity | exact Hlen]).
    simpl step. unfold countSaves in *. simpl filter. simpl List.length.
    destruct (save_cases w) as [-> | (s & e & _ & _ & ->)].
    + exists new. split; [reflexivity | lia].
    + rewrite close_sent. cbn [sent sendAction].
      eexists. rewrite <- app_assoc. split; [reflexivity | ].
      simpl. lia.
Qed.

End Sending.

(** ** The channel checkboxes *)

Lemma fold_left_addMDLCheckbox (names : list string) (acc : list Checkbox) :
  fold_left
    (fun container name =>
       addMDLCheckbox container (getChannelCheckboxId_ name)) names acc
  = acc ++ map (fun name => {| forId := getChannelCheckboxId_ name;
                               checked := false |}) names.
Proof.
  revert acc. induction names as [ | n names IH]; intros acc; simpl.
  - now rewrite app_nil_r.
  - rewrite IH. unfold addMDLCheckbox. now rewrite <- app_assoc.
Qed.

(** X9. Distinct channel names get distinct checkbox ids, so the label
    [querySelector] looks for belongs to the clicked channel and to no
    other. *)
Theorem getChannelCheckboxId_injective (a b : string) :
  (getChannelCheckboxId_ a = getChannelCheckboxId_ b <-> a = b)
  /\ forall names, NoDup names -> NoDup (checkboxIdsOf names).
Proof.
  assert (Hinj : forall x y,
             getChannelCheckboxId_ x = getChannelCheckboxId_ y -> x = y).
  { intros x y H. unfold getChannelCheckboxId_ in H. simpl in H.
    now injection H. }
  split.
  - split; [apply Hinj | now intros ->].
  - intros names Hnames. unfold checkboxIdsOf.
    induction Hnames as [ | n names Hn Hnames IH]; simpl; constructor.
    + intros Hin. apply in_map_iff in Hin. destruct Hin as (m & Heq & Hm).
      apply Hinj in Heq. now subst.
    + exact IH.
Qed.

Section ChannelUpdates.

Context {montages : Montages}.

(** X10. A snapshot that lacks the channel ids or the index map is
    ignored: [handleChannelNames] leaves the widget, the page and the log as
    they are. *)
Theorem handleChannelNames_ignores_partial_snapshot
    (store : StoreData) (w : World) :
  channelIds store = None \/ indexChannelMap store = None ->
  handleChannelNames store w = w.
Proof.
  intros [H | H]; unfold handleChannelNames; rewrite H.
  - reflexivity.
  - destruct (channelIds store); reflexivity.
Qed.

(** X11. With both fields present [handleChannelNames] rebuilds the
    checkbox container from scratch: one label per channel name, in order,
    each with the id of its channel, whatever the container held before.
    The rest of the page and the log are untouched, and a second update
    with the same snapshot changes nothing. *)
Theorem handleChannelNames_rebuilds_checkboxes
    (store : StoreData) (ids : list string) (indexMap : IndexChannelMap)
    (w : World) :
  channelIds store = Some ids ->
  indexChannelMap store = Some indexMap ->
  let names := channelIndexesToNames ids indexMap in
  let w' := handleChannelNames store w in
  map forId (containerLabels (dom w')) = checkboxIdsOf names
  /\ List.length (containerLabels (dom w')) = List.length names
  /\ dom w' = set_containerLabels (containerLabels (dom w')) (dom w)
  /\ sent w' = sent w
  /\ handleChannelNames store w' = w'.
Proof.
  intros Hids Hmap names w'.
  assert (Hw' : w' = onDom (set_containerLabels
                              (map (fun name =>
                                      {| forId := getChannelCheckboxId_ name;
                                         checked := false |}) names))
                       (onWidget (set_allChannels_ names) w)).
  { subst w'. unfold handleChannelNames. rewrite Hids, Hmap.
    cbv zeta. cbn [widget onWidget allChannels_ set_allChannels_].
    now rewrite fold_left_addMDLCheckbox. }
  repeat split.
  - rewrite Hw'. cbn [dom onDom containerLabels set_containerLabels].
    rewrite map_map. reflexivity.
  - rewrite Hw'. cbn [dom onDom containerLabels set_containerLabels].
    apply length_map.
  - rewrite Hw'. reflexivity.
  - rewrite Hw'. reflexivity.
  - unfold handleChannelNames at 1. rewrite Hids, Hmap. cbv zeta.
    fold names. rewrite fold_left_addMDLCheckbox. rewrite Hw'. reflexivity.
Qed.

End ChannelUpdates.

(** X12. The callback of a channel's checkbox makes the selection agree
    with the box: the channel is selected exactly when the box is checked,
    no other channel changes, and neither do the times, the page or the
    log. *)
Theorem checkboxCallback_sets_membership
    (channel : string) (v : bool) (w : World) :
  let w' := checkboxCallback channel v w in
  JsSet.has (selectedChannels_ (widget w')) channel = v
  /\ (forall other, other <> channel ->
        JsSet.has (selectedChannels_ (widget w')) other
        = JsSet.has (selectedChannels_ (widget w)) other)
  /\ startTime_ (widget w') = startTime_ (widget w)
  /\ endTime_ (widget w') = endTime_ (widget w)
  /\ dom w' = dom w
  /\ sent w' = sent w.
Proof.
  intros w'. subst w'. unfold checkboxCallback. destruct v; simpl.
  - repeat split.
    + rewrite JsSet_has_add, String.eqb_refl. apply orb_true_r.
    + intros other Hneq. apply String.eqb_neq in Hneq.
      rewrite JsSet_has_add, Hneq. apply orb_false_r.
  - repeat split.
    + rewrite JsSet_has_delete, String.eqb_refl. apply andb_false_r.
    + intros other Hneq. apply String.eqb_neq in Hneq.
      rewrite JsSet_has_delete, Hneq. apply andb_true_r.
Qed.

Lemma map_toggle_checked (v : bool) (ls : list Checkbox) :
  Forall (fun l => checked l = v)
    (map (fun label => toggleMDLCheckbox label v) ls)
  /\ map forId (map (fun label => toggleMDLCheckbox label v) ls)
     = map forId ls.
Proof.
  split.
  - apply Forall_forall. intros l Hl. apply in_map_iff in Hl.
    destruct Hl as (l0 & <- & _). reflexivity.
  - rewrite map_map. reflexivity.
Qed.

Lemma toggleAllChannelCheckboxes_labels (v : bool) (d : Dom) :
  Forall (fun l => checked l = v)
    (channelLabels (toggleAllChannelCheckboxes_ v d))
  /\ map forId (channelLabels (toggleAllChannelCheckboxes_ v d))
     = map forId (channelLabels d).
Proof.
  unfold channelLabels, toggleAllChannelCheckboxes_.
  cbn [staticLabels containerLabels set_staticLabels set_containerLabels].
  destruct (map_toggle_checked v (staticLabels d)) as [Hs1 Hs2].
  destruct (map_toggle_checked v (containerLabels d)) as [Hc1 Hc2].
  split.
  - apply Forall_app. now split.
  - rewrite !map_app. now rewrite Hs2, Hc2.
Qed.

(** X13. [close] leaves both inputs empty, every channel box unchecked
    (the same labels, in the same order) and the form hidden where it was;
    it keeps the channel names, the type dropdown and the log. *)
Theorem close_clears_the_form (w : World) :
  let w' := close w in
  startTimeInput (dom w') = ""
  /\ endTimeInput (dom w') = ""
  /\ Forall (fun l => checked l = false) (channelLabels (dom w'))
  /\ map forId (channelLabels (dom w')) = map forId (channelLabels (dom w))
  /\ form (dom w') = set_hidden true (form (dom w))
  /\ typeDropdown (dom w') = typeDropdown (dom w)
  /\ allChannels_ (widget w') = allChannels_ (widget w)
  /\ sent w' = sent w.
Proof.
  intros w'.
  destruct (toggleAllChannelCheckboxes_labels false
              (set_endTimeInput "" (set_startTimeInput "" (dom w))))
    as [Hchecked Hids].
  repeat split; try reflexivity.
  - exact Hchecked.
  - exact Hids.
Qed.

(** X14. [toggleAllChannels] makes every channel box show the state of
    the "All" box (the same labels, in the same order) and keeps the times,
    the channel names, the inputs, the form, the type dropdown and the
    log. *)
Theorem toggleAllChannels_syncs_every_box (v : bool) (w : World) :
  let w' := toggleAllChannels v w in
  Forall (fun l => checked l = v) (channelLabels (dom w'))
  /\ map forId (channelLabels (dom w')) = map forId (channelLabels (dom w))
  /\ startTime_ (widget w') = startTime_ (widget w)
  /\ endTime_ (widget w') = endTime_ (widget w)
  /\ allChannels_ (widget w') = allChannels_ (widget w)
  /\ startTimeInput (dom w') = startTimeInput (dom w)
  /\ endTimeInput (dom w') = endTimeInput (dom w)
  /\ form (dom w') = form (dom w)
  /\ typeDropdown (dom w') = typeDropdown (dom w)
  /\ sent w' = sent w.
Proof.
  intros w'.
  destruct (toggleAllChannelCheckboxes_labels v (dom w)) as [Hchecked Hids].
  subst w'. unfold toggleAllChannels. destruct v; repeat split; assumption.
Qed.

(** ** Where the form lands *)


(** ** The type of the event *)

Section TypeOfEvent.

Context {formatter : Formatter} {montages : Montages}
        {engine : SelectorEngine}.

(** X16. [selectType] changes the type dropdown and nothing else, and the
    [save] that follows sends the selected type as the label of the event,
    for every type in which [innerHTML] has nothing to escape. *)
Theorem selectType_labels_the_event (type : string) (w : World) (s : Z) :
  plainText type = true ->
  reachable w ->
  startTime_ (widget w) = Some s ->
  widget (selectType type w) = widget w
  /\ sent (selectType type w) = sent w
  /\ dom (selectType type w) = set_typeDropdown type (dom w)
  /\ exists a,
       sent (save (selectType type w)) = sent w ++ [a]
       /\ labelText (data a) = type
       /\ startTime (data a) = s
       /\ channelList (data a) = selectedChannels_ (widget w).
Proof.
  intros Hplain Hr Hs.
  assert (Hdom : dom (selectType type w) = set_typeDropdown type (dom w)).
  { unfold selectType. cbn [dom onDom]. now rewrite (escapeText_plain type). }
  do 2 (split; [reflexivity | ]). split; [exact Hdom | ].
  eexists. split.
  - rewrite save_unfold. cbn [widget selectType onDom]. rewrite Hs.
    cbv zeta. rewrite (reachable_guard w s Hr Hs).
    rewrite close_sent. cbn [sent sendAction selectType onDom]. reflexivity.
  - cbn [data waveEventAction labelText startTime channelList].
    rewrite Hdom. repeat split.
Qed.

(** X17. Only clicks, [close] and [save] touch the two times, and only a
    channel update touches the channel names: every other call leaves them
    as they are. *)
Theorem calls_keep_times_and_channel_names (c : Call) (w : World) :
  match c with
  | GraphPointClicked _ | Close | Save => True
  | _ =>
      startTime_ (widget (step w c)) = startTime_ (widget w)
      /\ endTime_ (widget (step w c)) = endTime_ (widget w)
  end
  /\ match c with
     | ChannelNamesChanged _ => True
     | _ => allChannels_ (widget (step w c)) = allChannels_ (widget w)
     end.
Proof.
  destruct c as [store | store | type | | | v | c v | d]; simpl.
  - split; [trivial | ]. unfold handleGraphPointClick.
    destruct (graphPointClick store) as [click | ]; [ | reflexivity].
    destruct (queryLabelFor _ _) as [ | element]; [reflexivity | ].
    destruct (isNull (startTime_ (widget w))); [reflexivity | ].
    destruct (negb false && _ && _); [reflexivity | ].
    destruct (JsSet.has _ _); reflexivity.
  - split; [ | trivial]. unfold handleChannelNames.
    destruct (channelIds store), (indexChannelMap store); split; reflexivity.
  - repeat split.
  - repeat split.
  - split; [trivial | ].
    destruct (save_cases w) as [-> | (s & e & _ & _ & ->)]; reflexivity.
  - destruct v; repeat split.
  - destruct v; repeat split.
  - repeat split.
Qed.

End TypeOfEvent.

(** ** From one event to the next *)

Section NextEvent.

Context {formatter : Formatter} {montages : Montages}
        {engine : SelectorEngine}.

Lemma first_click_widget
    (store : StoreData) (click : GraphPointClick) (w : World) :
  graphPointClick store = Some click ->
  lookupRuns (channelName click) (dom w) ->
  startTime_ (widget w) = None ->
  widget (handleGraphPointClick store w)
  = set_selectedChannels_
      (JsSet.add (selectedChannels_ (widget w)) (channelName click))
      (set_startTime_ (Some (timeValue click)) (widget w)).
Proof.
  intros Hclick Hrun Hstart. unfold handleGraphPointClick. rewrite Hclick.
  destruct (queryLabelFor _ _) as [ | element] eqn:Hquery;
    [exfalso; exact (Hrun Hquery) | ].
  rewrite Hstart. reflexivity.
Qed.

(** X18. After a [save], the next click whose label lookup does not throw
    always starts a new event: it sets the start time to its own time and
    there is no end time, whether the [save] sent an action or had nothing
    to send. *)
Theorem click_after_save_starts_new_event
    (store : StoreData) (click : GraphPointClick) (w : World) :
  reachable w ->
  graphPointClick store = Some click ->
  lookupRuns (channelName click) (dom (save w)) ->
  let w' := handleGraphPointClick store (save w) in
  startTime_ (widget w') = Some (timeValue click)
  /\ endTime_ (widget w') = None
  /\ JsSet.has (selectedChannels_ (widget w')) (channelName click) = true.
Proof.
  intros Hr Hclick Hrun w'.
  assert (Hsaved : startTime_ (widget (save w)) = None
                   /\ endTime_ (widget (save w)) = None).
  { rewrite save_unfold.
    destruct (startTime_ (widget w)) as [s | ] eqn:Hs.
    - cbv zeta. rewrite (reachable_guard w s Hr Hs). split; reflexivity.
    - split; [exact Hs | ].
      destruct (endTime_ (widget w)) as [e | ] eqn:He; [ | reflexivity].
      destruct (reachable_endAfterStart w Hr e He) as (s & Hs' & _).
      congruence. }
  destruct Hsaved as [Hstart Hend].
  subst w'.
  rewrite (first_click_widget store click (save w) Hclick Hrun Hstart).
  cbn [startTime_ endTime_ selectedChannels_ set_selectedChannels_
       set_startTime_].
  split; [reflexivity | split; [exact Hend | ]].
  rewrite JsSet_has_add, String.eqb_refl. apply orb_true_r.
Qed.

(** X19. [close] hides the form, and a hidden form measures 0 by 0: the
    click that opens the form again (its label lookup not throwing) is
    positioned with the default size, 330 by 487, whatever size the form
    was rendered with. *)
Theorem reopened_form_uses_default_size
    (store : StoreData) (click : GraphPointClick) (w : World) :
  graphPointClick store = Some click ->
  lookupRuns (channelName click) (dom (close w)) ->
  let w' := handleGraphPointClick store (close w) in
  let x := xPos click in
  let y := yPos click in
  let top1 := if x - 330 - 20 <? 0 then y + 80 else y in
  styleLeft (form (dom w'))
  = Some (if x - 330 - 20 <? 0 then x + 10 else x - 330 - 20)
  /\ styleTop (form (dom w'))
     = Some (if top1 >? innerHeight (dom w) - 487 - 100
             then y - 487 - (if x - 330 - 20 <? 0 then 200 else 20)
             else top1)
  /\ hidden (form (dom w')) = false.
Proof.
  intros Hclick Hrun w' x y top1.
  set (pretty := formatTime (jsAdd (absStart store) (timeValue click)) true).
  set (typed := set_endTimeInput "" (set_startTimeInput pretty
                                       (dom (close w)))).
  set (placed := setWaveEventFormPosition_ x y typed).
  destruct (queryLabelFor (getChannelCheckboxId_ (channelName click))
              (dom (close w)))
    as [ | element] eqn:Hquery; [exfalso; exact (Hrun Hquery) | ].
  assert (Hdom : dom w' = toggleElement element true
                            (set_form (set_hidden false (form placed))
                               placed)).
  { subst w'. unfold handleGraphPointClick. rewrite Hclick, Hquery.
    reflexivity. }
  destruct (toggleElement_frame element true
              (set_form (set_hidden false (form placed)) placed))
    as (Hf & _).
  rewrite Hdom, Hf. cbn [form set_form set_hidden styleLeft styleTop hidden].
  destruct (setWaveEventFormPosition_style x y typed) as [Hl Ht].
  fold placed in Hl, Ht. rewrite Hl, Ht.
  repeat split.
Qed.

End NextEvent.

(** ** The further properties on the sample page *)

(** The first click on the sample page, at time 10 and (50, 100). *)
Lemma first_click_on_sample_page :
  startTime_ (widget afterFirstClick) = Some 10
  /\ selectedChannels_ (widget afterFirstClick) = ["Fp1"]
  /\ startTimeInput (dom afterFirstClick) = "10s"
  /\ endTimeInput (dom afterFirstClick) = ""
  /\ hidden (form (dom afterFirstClick)) = false
  /\ styleLeft (form (dom afterFirstClick)) = Some 60
  /\ styleTop (form (dom afterFirstClick)) = Some 180.
Proof.
  destruct (@first_click_starts_event sampleFormatter sampleEngine
              (clickAt 10 "Fp1" 50 100)
              {| timeValue := 10; channelName := "Fp1";
                 xPos := 50; yPos := 100 |}
              channelsKnown eq_refl
              (@plain_lookupRuns sampleEngine "Fp1" (dom channelsKnown)
                 eq_refl)
              eq_refl)
    as (Hs & _ & Hsel & _ & Hsi & Hei & Hform & _).
  split; [exact Hs | split; [exact Hsel | split; [exact Hsi | ]]].
  split; [exact Hei | ].
  change (form (dom afterFirstClick))
    with (form (dom (@handleGraphPointClick sampleFormatter sampleEngine
                       (clickAt 10 "Fp1" 50 100) channelsKnown))).
  rewrite Hform. repeat split.
Defined.

(** The second click on the sample page, at time 25 on Cz. *)
Lemma second_click_on_sample_page :
  startTime_ (widget afterSecondClick) = Some 10
  /\ endTime_ (widget afterSecondClick) = Some 25
  /\ selectedChannels_ (widget afterSecondClick) = ["Fp1"; "Cz"]
  /\ endTimeInput (dom afterSecondClick) = "25s".
Proof.
  destruct (@second_click_ends_event sampleFormatter sampleEngine
              (clickAt 25 "Cz" 400 300)
              {| timeValue := 25; channelName := "Cz";
                 xPos := 400; yPos := 300 |}
              afterFirstClick 10 eq_refl
              (@plain_lookupRuns sampleEngine "Cz" (dom afterFirstClick)
                 eq_refl)
              eq_refl eq_refl eq_refl)
    as (Hs & He & Hsel & _ & Hei & _).
  split; [exact Hs | split; [exact He | split; [exact Hsel | exact Hei]]].
Defined.

(** The lookup for Fp1 returns the second label of the sample page (the
    first is the box "All"), and the first click checks its box. *)
Lemma first_click_checks_the_box :
  labelOf (Some 1%nat) (dom afterFirstClick)
  = Some {| forId := "wave-event-channel-Fp1"; checked := true |}.
Proof.
  exact (proj1 (proj1 (proj2 (@click_checkbox_shows_membership
                                sampleFormatter sampleEngine
                                (clickAt 10 "Fp1" 50 100)
                                {| timeValue := 10; channelName := "Fp1";
                                   xPos := 50; yPos := 100 |}
                                channelsKnown eq_refl))
                  (Some 1%nat) eq_refl)
           {| forId := "wave-event-channel-Fp1"; checked := false |}
           eq_refl).
Defined.

(** Clicks at 10 on Fp1 and at 25 on Cz, then [save], on the sample
    page. *)
Lemma two_clicks_then_save_on_sample_page :
  sent (@run sampleFormatter sampleMontages
              sampleEngine
          [GraphPointClicked (clickAt 10 "Fp1" 50 100);
           GraphPointClicked (clickAt 25 "Cz" 400 300);
           Save] (fresh samplePage))
  = [{| actionType := ADD_WAVE_EVENT;
        data := {| labelText := "SZ";
                   startTime := 10;
                   duration := 15;
                   channelList := ["Fp1"; "Cz"] |} |}].
Proof.
  exact (proj1 (@two_clicks_then_save sampleFormatter sampleMontages
                  sampleEngine samplePage
                  (clickAt 10 "Fp1" 50 100) (clickAt 25 "Cz" 400 300)
                  {| timeValue := 10; channelName := "Fp1";
                     xPos := 50; yPos := 100 |}
                  {| timeValue := 25; channelName := "Cz";
                     xPos := 400; yPos := 300 |}
                  eq_refl eq_refl eq_refl eq_refl eq_refl)).
Defined.

Lemma afterSave_reachable :
  @reachable sampleFormatter sampleMontages sampleEngine afterSave.
Proof.
  exists samplePage, (secondClickCalls ++ [Save]). reflexivity.
Defined.

(** The one action sent after two clicks and a [save] is well formed. *)
Lemma sent_after_save_is_well_formed :
  Forall wellFormedAction
    [{| actionType := ADD_WAVE_EVENT;
        data := {| labelText := "SZ";
                   startTime := 10;
                   duration := 15;
                   channelList := ["Fp1"; "Cz"] |} |}].
Proof.
  exact (@sent_actions_are_well_formed sampleFormatter sampleMontages
           sampleEngine afterSave afterSave_reachable).
Defined.

(** Channel ids without an index map: nothing happens. *)
Lemma partial_snapshot_on_sample :
  @handleChannelNames sampleMontages partialSnapshot afterFirstClick
  = afterFirstClick.
Proof.
  exact (@handleChannelNames_ignores_partial_snapshot sampleMontages
           partialSnapshot afterFirstClick (or_intror eq_refl)).
Defined.

(** The channels become C3 and C4: the container holds their two labels
    and no longer those of Fp1 and Cz. *)
Lemma rebuilt_checkboxes_on_sample :
  map forId
    (containerLabels
       (dom (@handleChannelNames sampleMontages
               (channelsUpdate ["0"; "1"] [("0", "C3"); ("1", "C4")])
               afterFirstClick)))
  = ["wave-event-channel-C3"; "wave-event-channel-C4"].
Proof.
  exact (proj1 (@handleChannelNames_rebuilds_checkboxes sampleMontages
                  (channelsUpdate ["0"; "1"] [("0", "C3"); ("1", "C4")])
                  ["0"; "1"] [("0", "C3"); ("1", "C4")]
                  afterFirstClick eq_refl eq_refl)).
Defined.


(** The type ED is selected after the first click and then saved. *)
Lemma selected_type_is_sent :
  exists a,
    sent (save (selectType "ED" afterFirstClick)) = [a]
    /\ labelText (data a) = "ED".
Proof.
  destruct (@selectType_labels_the_event sampleFormatter sampleMontages
              sampleEngine "ED" afterFirstClick 10 eq_refl
              afterFirstClick_reachable eq_refl)
    as (_ & _ & _ & a & Hsent & Hlabel & _).
  exists a. split; [exact Hsent | exact Hlabel].
Defined.

(** After two clicks and a [save], a click at time 40 starts the next
    event. *)
Lemma click_after_save_on_sample :
  startTime_
    (widget (@handleGraphPointClick sampleFormatter sampleEngine
               (clickAt 40 "Cz" 400 300) afterSave))
  = Some 40.
Proof.
  exact (proj1 (@click_after_save_starts_new_event sampleFormatter
                  sampleMontages sampleEngine (clickAt 40 "Cz" 400 300)
                  {| timeValue := 40; channelName := "Cz";
                     xPos := 400; yPos := 300 |}
                  afterSecondClick afterSecondClick_reachable eq_refl
                  (@plain_lookupRuns sampleEngine "Cz"
                     (dom (save afterSecondClick)) eq_refl))).
Defined.

(** A click at (400, 300) that opens the form again after [close]: the
    form goes to 400 - 330 - 20 = 50; its top, 300, is past the limit
    800 - 487 - 100 = 213, so it ends at 300 - 487 - 20. *)
Lemma reopened_form_on_sample :
  styleLeft
    (form (dom (@handleGraphPointClick sampleFormatter sampleEngine
                  (clickAt 40 "Cz" 400 300) (close afterSecondClick))))
  = Some 50
  /\ styleTop
       (form (dom (@handleGraphPointClick sampleFormatter sampleEngine
                     (clickAt 40 "Cz" 400 300) (close afterSecondClick))))
     = Some (-207).
Proof.
  destruct (@reopened_form_uses_default_size sampleFormatter sampleEngine
              (clickAt 40 "Cz" 400 300)
              {| timeValue := 40; channelName := "Cz";
                 xPos := 400; yPos := 300 |}
              afterSecondClick eq_refl
              (@plain_lookupRuns sampleEngine "Cz"
                 (dom (close afterSecondClick)) eq_refl))
    as (Hl & Ht & _).
  split; [exact Hl | exact Ht].
Defined.
